(** * Verification of [utils/dataloader.py]

    A shallow embedding of the dataset adapter of torch-neural-ssm:
    [SSMDataset] (a map-style dataset over four parallel arrays) and
    [SSMDataModule.make_loader] with its four accessors.

    The Python code is glue over NumPy and PyTorch.  The parts of those
    libraries the code calls are modelled in the modules [Py], [Np] and
    [Torch] below, from their documented behaviour; the repository's own
    functions are embedded in the modules [SSMDataset] and [SSMDataModule],
    under the source's names.

    Conventions.
    - Exceptions: every fallible call returns a [result]; the constructor
      [Raise] carries the Python exception class.
    - Randomness: the hidden generator state of [np.random] and of [torch]
      is an explicit value of type [rng], a stream of raw draws.  Every
      theorem quantifies over all streams, hence over every outcome the real
      generators can produce.
    - Floating point: [cfg.dataset_percent] is an IEEE-754 binary64 value,
      modelled with the Standard Library's [SpecFloat]. *)

From Stdlib Require Import ZArith QArith Qround.
From Stdlib Require Import Floats.SpecFloat.
From stdpp Require Import base option list gmap strings.

Close Scope Q_scope.
Close Scope Z_scope.

(* ===================================================================== *)
(** * Python: exceptions, results, floats *)
(* ===================================================================== *)

Module Py.

Local Open Scope Z_scope.

(** The exception classes that the modelled calls can raise. *)
Inductive exn : Type :=
  | FileNotFoundError
  | KeyError
  | IndexError
  | ValueError
  | OverflowError
  | ZeroDivisionError
  | RuntimeError.

#[global] Instance exn_eq_dec : EqDecision exn.
Proof. solve_decision. Defined.

Inductive result (A : Type) : Type :=
  | Ok (a : A)
  | Raise (e : exn).
Arguments Ok {A} a.
Arguments Raise {A} e.

(** Sequencing: the first exception raised aborts the computation.
    (Used through stdpp's notation [x ← r; k].) *)
#[global] Instance result_ret : MRet result := fun A a => Ok a.
#[global] Instance result_bind : MBind result := fun A B k r =>
  match r with
  | Ok a => k a
  | Raise e => Raise e
  end.

Definition is_Ok {A : Type} (r : result A) : Prop := exists a, r = Ok a.
Definition raises {A : Type} (r : result A) : Prop := exists e, r = Raise e.

(** ** binary64 *)

Definition float : Type := spec_float.

Definition prec : Z := 53.
Definition emax : Z := 1024.

(** [1.0] and [0.0]. *)
Definition float_one : float := S754_finite false 4503599627370496 (-52).
Definition float_zero : float := S754_zero false.

(** [float(n)] for a Python [int]: round to nearest even, and
    [OverflowError] ("int too large to convert to float") past the range. *)
Definition float_of_int (n : Z) : result float :=
  match binary_normalize prec emax n 0 false with
  | S754_infinity _ => Raise OverflowError
  | f => Ok f
  end.

Definition float_mul (x y : float) : float := SFmul prec emax x y.

(** [n * p] with [n] an [int] and [p] a [float]: the int is converted. *)
Definition int_mul_float (n : Z) (p : float) : result float :=
  x ← float_of_int n; Ok (float_mul x p).

(** [int(x)]: truncation towards zero; [ValueError] on NaN and
    [OverflowError] on the infinities. *)
Definition int_of_float (x : float) : result Z :=
  match x with
  | S754_zero _ => Ok 0
  | S754_nan => Raise ValueError
  | S754_infinity _ => Raise OverflowError
  | S754_finite s m e =>
      let a := if 0 <=? e then Z.pos m * 2 ^ e else Z.pos m / 2 ^ (- e) in
      Ok (if s then - a else a)
  end.

(** The exact rational value of a finite float (0 for the others), used
    only to state what [int] computes. *)
Definition float_to_Q (x : float) : Q :=
  match x with
  | S754_finite s m e =>
      let sm := if s then Z.neg m else Z.pos m in
      if 0 <=? e then inject_Z (sm * 2 ^ e)
      else Qmake sm (Z.to_pos (2 ^ (- e)))
  | _ => 0%Q
  end.

(** [k] doublings of a positive number (a mantissa shifted left). *)
Definition shift_pos (k : nat) (m : positive) : positive := Nat.iter k xO m.

(** [0 < p] and [p <= 1.0] as Python evaluates them. *)
Definition float_lt (x y : float) : bool := SFltb x y.
Definition float_le (x y : float) : bool := SFleb x y.

End Py.

Export Py.

(* ===================================================================== *)
(** * The random source *)
(* ===================================================================== *)

Module Rng.

(** A generator state is the stream of raw words it will produce. *)
Definition rng : Type := nat -> nat.

(** One integer uniform in [[0, max]] (bounds included). *)
Definition random_interval (g : rng) (max : nat) : nat * rng :=
  (g 0 mod S max, fun k => g (S k)).

End Rng.

Export Rng.

(* ===================================================================== *)
(** * NumPy: arrays, archives, sampling *)
(* ===================================================================== *)

Module Np.

(** Element types that occur in the archives (all of them are accepted by
    [torch.from_numpy]). *)
Inductive dtype : Type :=
  | Int16
  | Int32
  | Int64
  | Float32
  | Float64.

#[global] Instance dtype_eq_dec : EqDecision dtype.
Proof. solve_decision. Defined.

Definition is_floating (d : dtype) : bool :=
  match d with
  | Float32 | Float64 => true
  | _ => false
  end.

(** An array element: an integer or a floating-point number. *)
Inductive scalar : Type :=
  | SInt (z : Z)
  | SFlt (f : spec_float).

(** Two's-complement wrap-around to [w] bits. *)
Definition wrap (w : Z) (z : Z) : Z :=
  ((z + 2 ^ (w - 1)) mod 2 ^ w - 2 ^ (w - 1))%Z.

Definition width (d : dtype) : Z :=
  match d with
  | Int16 => 16
  | Int32 => 32
  | Int64 => 64
  | Float32 => 32
  | Float64 => 64
  end%Z.

(** Rounding of a float to the format [(p, e)] (24,128 is binary32). *)
Definition round_float (p e : Z) (f : spec_float) : spec_float :=
  match f with
  | S754_finite s m ex => binary_round p e s m ex
  | _ => f
  end.

Definition float_format (d : dtype) : Z * Z :=
  match d with
  | Float32 => (24, 128)
  | _ => (53, 1024)
  end%Z.

(** The integer part of a float; the C conversion is undefined on NaN and
    the infinities, where 0 stands for the platform's value. *)
Definition trunc_float (f : spec_float) : Z :=
  match Py.int_of_float f with
  | Ok z => z
  | Raise _ => 0%Z
  end.

(** Element conversion of [ndarray.astype(d)]. *)
Definition cast_scalar (d : dtype) (x : scalar) : scalar :=
  if is_floating d then
    let '(p, e) := float_format d in
    match x with
    | SInt z => SFlt (binary_normalize p e z 0 false)
    | SFlt f => SFlt (round_float p e f)
    end
  else
    match x with
    | SInt z => SInt (wrap (width d) z)
    | SFlt f => SInt (wrap (width d) (trunc_float f))
    end.

Definition zero_scalar (d : dtype) : scalar :=
  if is_floating d then SFlt (S754_zero false) else SInt 0.

(** An n-dimensional array: element type, shape, and the element at each
    multi-index.  [item] is meaningful inside [shape] only; every operation
    that indexes checks the bounds against [shape], as NumPy does. *)
Record ndarray : Type := mk_ndarray {
  dtype_of : dtype;
  shape : list nat;
  item : list nat -> scalar
}.

(** [a.shape[k]]; indexing the shape tuple out of range is an [IndexError]. *)
Definition shape_at (a : ndarray) (k : nat) : result nat :=
  match shape a !! k with
  | Some d => Ok d
  | None => Raise IndexError
  end.

(** [a.astype(d)] *)
Definition astype (d : dtype) (a : ndarray) : ndarray :=
  {| dtype_of := d; shape := shape a; item := fun ix => cast_scalar d (item a ix) |}.

(** [np.zeros(shape, dtype=d)] *)
Definition zeros (sh : list nat) (d : dtype) : ndarray :=
  {| dtype_of := d; shape := sh; item := fun _ => zero_scalar d |}.

(** [a[:, :, :k]]: needs at least three axes ("too many indices for
    array" otherwise); the third axis keeps its first [k] entries. *)
Definition slice_axis2 (k : nat) (a : ndarray) : result ndarray :=
  match shape a with
  | d0 :: d1 :: d2 :: rest =>
      Ok {| dtype_of := dtype_of a;
            shape := d0 :: d1 :: Nat.min k d2 :: rest;
            item := item a |}
  | _ => Raise IndexError
  end.

(** [a[idx]] for an integer index array [idx]: row [i] of the result is row
    [idx[i]] of [a]; an index past the first axis is an [IndexError]. *)
Definition take_rows (a : ndarray) (idx : list nat) : result ndarray :=
  match shape a with
  | [] => Raise IndexError
  | d0 :: rest =>
      if forallb (fun i => i <? d0) idx then
        Ok {| dtype_of := dtype_of a;
              shape := length idx :: rest;
              item := fun ix =>
                match ix with
                | [] => item a []
                | i :: r => item a (nth i idx 0 :: r)
                end |}
      else Raise IndexError
  end.

(** Row [i] of the first axis, as an array of its own. *)
Definition row (a : ndarray) (i : nat) : ndarray :=
  {| dtype_of := dtype_of a; shape := tail (shape a);
     item := fun ix => item a (i :: ix) |}.

(** ** Archives *)

(** An opened [.npz] archive: its arrays by key.  The file system maps a
    path to the archive stored there. *)
Abbreviation npzfile := (gmap string ndarray).
Abbreviation filesystem := (gmap string (gmap string ndarray)).

(** [np.load(path)] *)
Definition load (fs : filesystem) (path : string) : result npzfile :=
  match fs !! path with
  | Some z => Ok z
  | None => Raise FileNotFoundError
  end.

(** [npzfile[key]] *)
Definition getitem (z : npzfile) (key : string) : result ndarray :=
  match z !! key with
  | Some a => Ok a
  | None => Raise KeyError
  end.

(** [key in npzfile] *)
Definition contains (z : npzfile) (key : string) : bool :=
  bool_decide (is_Some (z !! key)).

(** ** [np.random] *)

(** Exchange of the entries at [i] and [j]. *)
Definition swap (x : list nat) (i j : nat) : list nat :=
  match x !! i, x !! j with
  | Some xi, Some xj => <[i := xj]> (<[j := xi]> x)
  | _, _ => x
  end.

(** The loop of [shuffle]: for [i] from its start value down to 1, exchange
    [x[i]] with [x[j]] for a random [j] in [[0, i]]. *)
Fixpoint shuffle_from (i : nat) (g : rng) (x : list nat) : list nat * rng :=
  match i with
  | O => (x, g)
  | S i' =>
      let '(j, g') := random_interval g i in
      shuffle_from i' g' (swap x i j)
  end.

(** [np.random.permutation(n)]: [arange(n)], shuffled. *)
Definition permutation (n : nat) (g : rng) : list nat * rng :=
  shuffle_from (n - 1) g (seq 0 n).

(** [np.random.choice(range(n), size=size, replace=False)]: the first
    [size] entries of a random permutation of the population. *)
Definition choice_no_replace (n : nat) (size : Z) (g : rng)
  : result (list nat) * rng :=
  if (Z.of_nat n <? size)%Z then (Raise ValueError, g)
  else if (size <? 0)%Z then (Raise ValueError, g)
  else
    let '(perm, g') := permutation n g in
    (Ok (take (Z.to_nat size) perm), g').

End Np.

Export Np.

(* ===================================================================== *)
(** * PyTorch: tensors, samplers, the DataLoader *)
(* ===================================================================== *)

Module Torch.

(** A tensor has an element type, a shape and elements, like an array. *)
Abbreviation Tensor := ndarray.

(** [torch.from_numpy(a)]: the same data seen as a tensor. *)
Definition from_numpy (a : ndarray) : Tensor := a.

(** [torch.Tensor([i])]: a float32 tensor of shape (1,). *)
Definition Tensor_of_int (i : Z) : Tensor :=
  {| dtype_of := Float32; shape := [1];
     item := fun _ => cast_scalar Float32 (SInt i) |}.

(** [t[i]] for a Python int [i]: row [i] of the first axis, negative [i]
    counting from the end; [IndexError] outside or on a 0-d tensor. *)
Definition index_row (t : Tensor) (i : Z) : result Tensor :=
  match shape t with
  | [] => Raise IndexError
  | d0 :: rest =>
      let d := Z.of_nat d0 in
      if ((i <? - d) || (d <=? i))%Z then Raise IndexError
      else
        Ok (row t (Z.to_nat (if (i <? 0)%Z then i + d else i)%Z))
  end.

(** The interface of [torch.utils.data.Dataset]: a length and an item per
    index.  [S] is the type of one item. *)
Class Dataset (D S : Type) : Type := {
  ds_len : D -> result nat;
  ds_getitem : D -> Z -> result S
}.

(** ** Samplers *)

Inductive Sampler (D : Type) : Type :=
  | SequentialSampler (data_source : D)
  | RandomSampler (data_source : D) (replacement : bool) (num_samples : Z).
Arguments SequentialSampler {D} data_source.
Arguments RandomSampler {D} data_source replacement num_samples.

(** [RandomSampler(data_source, replacement, num_samples)]: [num_samples]
    defaults to the length of the data source and must be positive. *)
Definition RandomSampler_init {D S} `{Dataset D S} (data_source : D)
    (replacement : bool) (num_samples : option Z) : result (Sampler D) :=
  ns ← match num_samples with
       | Some k => Ok k
       | None => n ← ds_len data_source; Ok (Z.of_nat n)
       end;
  if (ns <=? 0)%Z then Raise ValueError
  else Ok (RandomSampler data_source replacement ns).

(** [torch.randint(high=n, size=(m,))]: [m] independent draws below [n];
    an empty range is a [RuntimeError]. *)
Fixpoint randint_draws (n m : nat) (g : rng) : list nat * rng :=
  match m with
  | O => ([], g)
  | S m' =>
      let '(x, g1) := random_interval g (n - 1) in
      let '(xs, g2) := randint_draws n m' g1 in
      (x :: xs, g2)
  end.

Definition randint (n m : nat) (g : rng) : result (list nat) * rng :=
  if (n =? 0)%nat then (Raise RuntimeError, g)
  else let '(xs, g') := randint_draws n m g in (Ok xs, g').

(** The loop of [torch.randperm]: for [i] from its start value upwards,
    exchange [r[i]] with [r[i + z]] for a random [z] below the number of
    entries left. *)
Fixpoint randperm_from (steps i : nat) (g : rng) (r : list nat)
  : list nat * rng :=
  match steps with
  | O => (r, g)
  | S steps' =>
      let '(z, g') := random_interval g steps in
      randperm_from steps' (S i) g' (swap r i (i + z))
  end.

(** [torch.randperm(n)] *)
Definition randperm (n : nat) (g : rng) : list nat * rng :=
  randperm_from (n - 1) 0 g (seq 0 n).

Fixpoint randperms (k n : nat) (g : rng) : list nat * rng :=
  match k with
  | O => ([], g)
  | S k' =>
      let '(p, g1) := randperm n g in
      let '(ps, g2) := randperms k' n g1 in
      (p ++ ps, g2)
  end.

(** One pass over a sampler: the indices it yields. *)
Definition Sampler_iter {D S} `{Dataset D S} (s : Sampler D) (g : rng)
  : result (list nat) * rng :=
  match s with
  | SequentialSampler ds =>
      (n ← ds_len ds; Ok (seq 0 n), g)
  | RandomSampler ds true ns =>
      match ds_len ds with
      | Raise e => (Raise e, g)
      | Ok n => randint n (Z.to_nat ns) g
      end
  | RandomSampler ds false ns =>
      match ds_len ds with
      | Raise e => (Raise e, g)
      | Ok n =>
          if (n =? 0)%nat then (Raise ZeroDivisionError, g)
          else
            let '(ps, g1) := randperms (Z.to_nat ns / n) n g in
            let '(p, g2) := randperm n g1 in
            (Ok (ps ++ take (Z.to_nat ns mod n) p), g2)
      end
  end.

(** The loop of [BatchSampler]: indices are appended to the current batch,
    which is yielded when it reaches [batch_size]. *)
Fixpoint batch_loop (batch_size : nat) (idxs : list nat) (batch : list nat)
  : list (list nat) * list nat :=
  match idxs with
  | [] => ([], batch)
  | idx :: rest =>
      let batch' := batch ++ [idx] in
      if (length batch' =? batch_size)%nat then
        let '(out, last) := batch_loop batch_size rest [] in
        (batch' :: out, last)
      else batch_loop batch_size rest batch'
  end.

(** The batches of one pass: a non-empty rest is yielded unless
    [drop_last]. *)
Definition BatchSampler_iter (batch_size : nat) (drop_last : bool)
    (idxs : list nat) : list (list nat) :=
  let '(out, last) := batch_loop batch_size idxs [] in
  if (0 <? length last)%nat && negb drop_last then out ++ [last] else out.

(** ** DataLoader *)

Record DataLoader (D : Type) : Type := mk_DataLoader {
  dataset : D;
  sampler : Sampler D;
  batch_size : Z;
  drop_last : bool
}.
Arguments mk_DataLoader {D}.
Arguments dataset {D}.
Arguments sampler {D}.
Arguments batch_size {D}.
Arguments drop_last {D}.

(** [DataLoader(dataset, batch_size=, shuffle=, sampler=, drop_last=)]:
    a given sampler excludes [shuffle]; without one, [shuffle] selects a
    [RandomSampler] and otherwise a [SequentialSampler]; the batch size
    must be positive. *)
Definition DataLoader_init {D S} `{Dataset D S} (ds : D) (batch_size : Z)
    (shuffle : bool) (sampler : option (Sampler D)) (drop_last : bool)
  : result (DataLoader D) :=
  s ← match sampler with
      | Some s => if shuffle then Raise ValueError else Ok s
      | None =>
          if shuffle then RandomSampler_init ds false None
          else Ok (SequentialSampler ds)
      end;
  if (batch_size <=? 0)%Z then Raise ValueError
  else Ok (mk_DataLoader ds s batch_size drop_last).

(** [[f(x) for x in xs]], stopping at the first exception. *)
Fixpoint map_result {A B : Type} (f : A -> result B) (xs : list A)
  : result (list B) :=
  match xs with
  | [] => Ok []
  | x :: xs' => y ← f x; ys ← map_result f xs'; Ok (y :: ys)
  end.

(** The items of one batch of indices. *)
Definition fetch {D S} `{Dataset D S} (ds : D) (batch : list nat)
  : result (list S) :=
  map_result (fun i => ds_getitem ds (Z.of_nat i)) batch.

(** One full pass over the loader (single process): the batches in the
    order they are yielded, each batch as the list of its items, which the
    collate function then stacks field by field. *)
Definition DataLoader_iter {D S} `{Dataset D S} (dl : DataLoader D) (g : rng)
  : result (list (list S)) * rng :=
  match Sampler_iter (sampler dl) g with
  | (Raise e, g') => (Raise e, g')
  | (Ok idxs, g') =>
      (map_result (fetch (dataset dl))
         (BatchSampler_iter (Z.to_nat (batch_size dl)) (drop_last dl) idxs),
       g')
  end.

End Torch.

Export Torch.

(* ===================================================================== *)
(** * The source: [utils/dataloader.py] *)
(* ===================================================================== *)

(** One item of the dataset: the tuple that [__getitem__] returns. *)
Record sample : Type := mk_sample {
  s_index : Tensor;
  s_image : Tensor;
  s_state : Tensor;
  s_control : Tensor;
  s_label : Tensor
}.

(** [class SSMDataset(Dataset)] *)
Module SSMDataset.

Record t : Type := mk {
  images : Tensor;
  labels : Tensor;
  states : Tensor;
  controls : Tensor
}.

(** [__init__]: the four arrays are stored as they are given. *)
Definition __init__ (images labels states controls : Tensor) : t :=
  {| images := images; labels := labels;
     states := states; controls := controls |}.

(** [__len__]: [self.images.shape[0]] *)
Definition __len__ (self : t) : result nat :=
  shape_at (images self) 0.

(** [__getitem__]: the tuple is built left to right. *)
Definition __getitem__ (self : t) (idx : Z) : result sample :=
  let index := Tensor_of_int idx in
  image ← index_row (images self) idx;
  state ← index_row (states self) idx;
  control ← index_row (controls self) idx;
  label ← index_row (labels self) idx;
  Ok (mk_sample index image state control label).

#[global] Instance is_Dataset : Dataset t sample :=
  {| ds_len := __len__; ds_getitem := __getitem__ |}.

End SSMDataset.

(** The options of [cfg] that the module reads. *)
Module Cfg.

Record t : Type := mk {
  dataset : string;
  dataset_percent : float;
  batch_size : Z;
  num_steps : Z
}.

End Cfg.

(** [class SSMDataModule(pytorch_lightning.LightningDataModule)] *)
Module SSMDataModule.

Record t : Type := mk { cfg : Cfg.t }.

Definition __init__ (cfg : Cfg.t) : t := {| cfg := cfg |}.

(** The four arrays between the phases of [make_loader]. *)
Record arrays : Type := mk_arrays {
  a_images : ndarray;
  a_labels : ndarray;
  a_states : ndarray;
  a_controls : ndarray
}.

(** The path [f"data/{self.cfg.dataset}/{mode}.npz"]. *)
Definition npz_path (self : t) (mode : string) : string :=
  "data/" +:+ Cfg.dataset (cfg self) +:+ "/" +:+ mode +:+ ".npz".

(** Lines 36 to 44: open the archive and read the data sources. *)
Definition load_sources (self : t) (fs : filesystem) (mode : string)
  : result arrays :=
  npzfile ← Np.load fs (npz_path self mode);
  image ← Np.getitem npzfile "image";
  let images := astype Float32 image in
  label ← Np.getitem npzfile "label";
  let labels := astype Int16 label in
  state ← Np.getitem npzfile "state";
  states ← slice_axis2 2 (astype Float32 state);
  controls ←
    (if Np.contains npzfile "control" then Np.getitem npzfile "control"
     else
       d0 ← shape_at images 0;
       d1 ← shape_at images 1;
       Ok (zeros [d0; d1; 1] Float32));
  Ok (mk_arrays images labels states controls).

(** The [size] argument of line 47:
    [int(images.shape[0] * self.cfg.dataset_percent)]. *)
Definition subsample_size (n : nat) (dataset_percent : float) : result Z :=
  x ← int_mul_float (Z.of_nat n) dataset_percent;
  int_of_float x.

(** Line 47: the random index set. *)
Definition draw_rand_idx (self : t) (images : ndarray) (g : rng)
  : result (list nat) * rng :=
  match
    n ← shape_at images 0;
    size ← subsample_size n (Cfg.dataset_percent (cfg self));
    Ok (n, size)
  with
  | Raise e => (Raise e, g)
  | Ok (n, size) => choice_no_replace n size g
  end.

(** Lines 48 to 51: the index set applied to the four arrays. *)
Definition apply_rand_idx (a : arrays) (rand_idx : list nat) : result arrays :=
  images ← take_rows (a_images a) rand_idx;
  labels ← take_rows (a_labels a) rand_idx;
  states ← take_rows (a_states a) rand_idx;
  controls ← take_rows (a_controls a) rand_idx;
  Ok (mk_arrays images labels states controls).

(** Lines 54 to 70: tensors, dataset, and the loader of the setting. *)
Definition build_loader (self : t) (mode : string) (evaluation shuffle : bool)
    (a : arrays) : result (DataLoader SSMDataset.t) :=
  let images := from_numpy (a_images a) in
  let labels := from_numpy (a_labels a) in
  let states := from_numpy (a_states a) in
  let controls := from_numpy (a_controls a) in
  let dataset := SSMDataset.__init__ images labels states controls in
  if bool_decide (mode = "train") && negb evaluation then
    sampler ← RandomSampler_init dataset true
                (Some (Cfg.num_steps (cfg self) * Cfg.batch_size (cfg self))%Z);
    DataLoader_init dataset (Cfg.batch_size (cfg self)) false (Some sampler) true
  else
    DataLoader_init dataset (Cfg.batch_size (cfg self)) shuffle None false.

(** [make_loader(self, mode="train", evaluation=False, shuffle=True)].
    An argument left out at the call is [None] here and takes its default.
    [fs] is the file system read by [np.load]; [g] is the state of
    [np.random], returned updated. *)
Definition make_loader (self : t) (fs : filesystem)
    (mode : option string) (evaluation shuffle : option bool) (g : rng)
  : result (DataLoader SSMDataset.t) * rng :=
  let mode := default "train" mode in
  let evaluation := default false evaluation in
  let shuffle := default true shuffle in
  match load_sources self fs mode with
  | Raise e => (Raise e, g)
  | Ok a =>
      match draw_rand_idx self (a_images a) g with
      | (Raise e, g') => (Raise e, g')
      | (Ok rand_idx, g') =>
          (a' ← apply_rand_idx a rand_idx;
           build_loader self mode evaluation shuffle a', g')
      end
  end.

Definition train_dataloader (self : t) (fs : filesystem) (g : rng) :=
  make_loader self fs (Some "train") None None g.

Definition evaluate_train_dataloader (self : t) (fs : filesystem) (g : rng) :=
  make_loader self fs (Some "train") (Some true) (Some false) g.

Definition val_dataloader (self : t) (fs : filesystem) (g : rng) :=
  make_loader self fs (Some "val") None (Some false) g.

Definition test_dataloader (self : t) (fs : filesystem) (g : rng) :=
  make_loader self fs (Some "test") None (Some false) g.

End SSMDataModule.

Import SSMDataModule.

(* ===================================================================== *)
(** * Vocabulary of the statements *)
(* ===================================================================== *)

(** The dataset built from the arrays of a phase. *)
Definition dataset_of (a : arrays) : SSMDataset.t :=
  SSMDataset.mk (a_images a) (a_labels a) (a_states a) (a_controls a).

(** The number of rows of an array (0 for a 0-dimensional one). *)
Definition n_rows (x : ndarray) : nat := hd 0 (shape x).

(** The item of a dataset at a row that all four arrays have. *)
Definition sample_of (ds : SSMDataset.t) (i : nat) : sample :=
  mk_sample (Tensor_of_int (Z.of_nat i))
    (row (SSMDataset.images ds) i) (row (SSMDataset.states ds) i)
    (row (SSMDataset.controls ds) i) (row (SSMDataset.labels ds) i).

(** The archive has the three required keys. *)
Definition has_required_keys (z : npzfile) : Prop :=
  is_Some (z !! "image") /\ is_Some (z !! "label") /\ is_Some (z !! "state").

(** The exceptions of the later phases (after the archive was read). *)
Definition later_exn (e : exn) : Prop :=
  e = IndexError \/ e = ValueError \/ e = OverflowError.

(** The array has a first axis of at least [n] rows. *)
Definition has_rows (x : ndarray) (n : nat) : Prop :=
  match shape x with
  | [] => False
  | d :: _ => n <= d
  end.

(** The resampling setting of line 63. *)
Definition resampling (mode : string) (evaluation : bool) : bool :=
  bool_decide (mode = "train") && negb evaluation.

(* ===================================================================== *)
(** * Small archives and configurations *)
(* ===================================================================== *)

(** Concrete inputs on which the statements below are evaluated. *)
Module Toy.

(** The decimal number whose digits are the entries of a multi-index. *)
Definition encode (ix : list nat) : Z :=
  fold_left (fun acc i => 10 * acc + Z.of_nat i)%Z ix 0%Z.

(** A float64 array and an int64 array whose elements show their own
    position. *)
Definition float_array (sh : list nat) : ndarray :=
  {| dtype_of := Float64; shape := sh;
     item := fun ix => SFlt (binary_normalize 53 1024 (encode ix) 0 false) |}.

Definition int_array (sh : list nat) : ndarray :=
  {| dtype_of := Int64; shape := sh; item := fun ix => SInt (encode ix) |}.

(** An archive of [n] samples, 2 time steps, 3 pixels and 4 state channels,
    without and with a [control] array (stored as int64). *)
Definition npz (n : nat) : npzfile :=
  <["image" := float_array [n; 2; 3]]>
  (<["label" := int_array [n]]>
  (<["state" := float_array [n; 2; 4]]> ∅)).

(** An archive from three given arrays, without [control]. *)
Definition npz_of (image label state : ndarray) : npzfile :=
  <["image" := image]> (<["label" := label]> (<["state" := state]> ∅)).

Definition npz_with_control (n : nat) : npzfile :=
  <["control" := int_array [n; 2; 1]]> (npz n).

(** The data set [toy] with the same archive for the three splits. *)
Definition fs (z : npzfile) : filesystem :=
  <["data/toy/train.npz" := z]>
  (<["data/toy/val.npz" := z]>
  (<["data/toy/test.npz" := z]> ∅)).

Definition module (dataset_percent : float) (batch_size num_steps : Z)
  : SSMDataModule.t :=
  SSMDataModule.__init__
    (Cfg.mk "toy" dataset_percent batch_size num_steps).


(** A generator whose raw draws are all [k]. *)
Definition rng_const (k : nat) : rng := fun _ => k.

End Toy.

(* ===================================================================== *)
(** * Properties of the modelled library calls *)
(* ===================================================================== *)

Section Results.

Context {A B : Type}.

Lemma bind_Ok (r : result A) (k : A -> result B) (b : B) :
  r ≫= k = Ok b <-> exists a, r = Ok a /\ k a = Ok b.
Proof.
  destruct r as [a|e]; simpl; split.
  - eauto.
  - intros (a' & [= <-] & Hk). exact Hk.
  - discriminate.
  - intros (a' & [=] & _).
Qed.

Lemma bind_Raise (r : result A) (k : A -> result B) (e : exn) :
  r ≫= k = Raise e <-> r = Raise e \/ exists a, r = Ok a /\ k a = Raise e.
Proof.
  destruct r as [a|e']; simpl; split.
  - eauto.
  - intros [[=]|(a' & [= <-] & Hk)]. exact Hk.
  - intros [= <-]. auto.
  - intros [[= <-]|(a' & [=] & _)]. reflexivity.
Qed.

End Results.

(** ** Integers that the floating-point formats hold exactly *)

Section FloatExact.

Lemma iter_pos_nat {A : Type} (f : A -> A) (n : positive) (x : A) :
  SpecFloat.iter_pos f n x = Nat.iter (Pos.to_nat n) f x.
Proof.
  revert x. induction n as [n IH|n IH|]; intros x;
    cbn [SpecFloat.iter_pos].
  - rewrite !IH, Pos2Nat.inj_xI.
    rewrite <- Nat.iter_succ_r, <- Nat.iter_add. f_equal. lia.
  - rewrite !IH, Pos2Nat.inj_xO, <- Nat.iter_add. f_equal. lia.
  - reflexivity.
Qed.

Lemma pos_iter_nat {A : Type} (f : A -> A) (n : positive) (x : A) :
  Pos.iter f x n = Nat.iter (Pos.to_nat n) f x.
Proof.
  revert x. induction n as [n IH|n IH|]; intros x; cbn [Pos.iter].
  - rewrite !IH, Pos2Nat.inj_xI.
    rewrite <- Nat.iter_add.
    replace (S (2 * Pos.to_nat n)) with (S (Pos.to_nat n + Pos.to_nat n)) by lia.
    reflexivity.
  - rewrite !IH, Pos2Nat.inj_xO, <- Nat.iter_add. f_equal. lia.
  - reflexivity.
Qed.

Lemma shift_pos_Z (k : nat) (m : positive) :
  Z.pos (shift_pos k m) = (Z.pos m * 2 ^ Z.of_nat k)%Z.
Proof.
  induction k as [|k IH]; [simpl; lia|].
  unfold shift_pos in *. simpl Nat.iter.
  rewrite Pos2Z.inj_xO, IH, Nat2Z.inj_succ, Z.pow_succ_r by lia. lia.
Qed.

Lemma digits2_shift_pos (k : nat) (m : positive) :
  Z.pos (digits2_pos (shift_pos k m)) = (Z.pos (digits2_pos m) + Z.of_nat k)%Z.
Proof.
  induction k as [|k IH]; [simpl; lia|].
  unfold shift_pos in *. simpl Nat.iter. simpl digits2_pos.
  rewrite Pos2Z.inj_succ, IH. lia.
Qed.

Lemma shr_1_shift (k : nat) (m : positive) :
  Nat.iter k shr_1 (Build_shr_record (Z.pos (shift_pos k m)) false false)
  = Build_shr_record (Z.pos m) false false.
Proof.
  induction k as [|k IH]; [reflexivity|].
  rewrite Nat.iter_succ_r. unfold shift_pos in *. simpl Nat.iter at 2.
  simpl shr_1. exact IH.
Qed.

Lemma mul_shift_pos (k : nat) (m : positive) :
  (m * shift_pos k 1)%positive = shift_pos k m.
Proof.
  induction k as [|k IH]; [apply Pos.mul_1_r|].
  unfold shift_pos in *. simpl Nat.iter. by rewrite Pos.mul_xO_r, IH.
Qed.

Variables prec emax : Z.
Hypothesis Hprec : (1 < prec)%Z.
Hypothesis Hemax : (prec < emax)%Z.

(** A mantissa of full width with an exponent in range is kept as it is. *)
Lemma binary_round_aux_canonical (s : bool) (mz : positive) (ez : Z) :
  Z.pos (digits2_pos mz) = prec ->
  (emin prec emax <= ez <= emax - prec)%Z ->
  binary_round_aux prec emax s (Z.pos mz) ez loc_Exact = S754_finite s mz ez.
Proof.
  intros Hd He.
  assert (fexp prec emax (Z.pos (digits2_pos mz) + ez) = ez) as Hf
    by (unfold fexp; lia).
  unfold binary_round_aux, shr_fexp.
  cbn [Zdigits2 shr_record_of_loc]. rewrite Hf, Z.sub_diag.
  cbn [shr shr_m loc_of_shr_record round_nearest_even Zdigits2
       shr_record_of_loc].
  rewrite Hf, Z.sub_diag. cbn [shr shr_m].
  destruct (Z.leb_spec ez (emax - prec)); [reflexivity|lia].
Qed.

(** The float of a positive integer of at most [prec] bits: the integer,
    shifted to full width. *)
Lemma binary_round_small (s : bool) (m : positive) :
  (Z.pos (digits2_pos m) <= prec)%Z ->
  binary_round prec emax s m 0 =
    S754_finite s (shift_pos (Z.to_nat (prec - Z.pos (digits2_pos m))) m)
      (Z.pos (digits2_pos m) - prec).
Proof.
  intros Hd. set (d := Z.pos (digits2_pos m)) in *.
  assert (fexp prec emax (d + 0) = d - prec)%Z as Hf
    by (unfold fexp, emin; lia).
  unfold binary_round. fold d. rewrite Hf. unfold shl_align.
  destruct (d - prec - 0)%Z as [|q|q] eqn:Hq; [|lia|].
  - replace (prec - d)%Z with 0%Z by lia.
    replace (d - prec)%Z with 0%Z by lia. simpl shift_pos.
    apply binary_round_aux_canonical; [subst d; lia|unfold emin; lia].
  - rewrite pos_iter_nat.
    replace (Z.to_nat (prec - d)) with (Pos.to_nat q) by lia.
    apply binary_round_aux_canonical.
    + fold (shift_pos (Pos.to_nat q) m). rewrite digits2_shift_pos.
      fold d. lia.
    + unfold emin; lia.
Qed.

(** Multiplication by [1.0] leaves a full-width float as it is. *)
Lemma SFmul_one (s : bool) (mz : positive) (ez : Z) :
  Z.pos (digits2_pos mz) = prec ->
  (emin prec emax <= ez <= emax - prec)%Z ->
  SFmul prec emax (S754_finite s mz ez)
    (S754_finite false (shift_pos (Z.to_nat (prec - 1)) 1) (1 - prec))
  = S754_finite s mz ez.
Proof.
  intros Hd He. unfold SFmul. rewrite mul_shift_pos, xorb_false_r.
  set (k := Z.to_nat (prec - 1)).
  assert (fexp prec emax (Z.pos (digits2_pos (shift_pos k mz)) + (ez + (1 - prec)))
          = ez) as Hf.
  { rewrite digits2_shift_pos. unfold fexp. subst k. lia. }
  assert (fexp prec emax (Z.pos (digits2_pos mz) + ez) = ez) as Hf'
    by (unfold fexp; lia).
  unfold binary_round_aux, shr_fexp.
  cbn [Zdigits2 shr_record_of_loc]. rewrite Hf.
  destruct (ez - (ez + (1 - prec)))%Z as [|q|q] eqn:Hq; [lia| |lia].
  cbn [shr]. rewrite iter_pos_nat.
  replace (Pos.to_nat q) with k by (subst k; lia).
  rewrite shr_1_shift.
  cbn [shr_m loc_of_shr_record round_nearest_even Zdigits2 shr_record_of_loc].
  replace (ez + (1 - prec) + Z.pos q)%Z with ez by lia.
  rewrite Hf', Z.sub_diag. cbn [shr shr_m].
  destruct (Z.leb_spec ez (emax - prec)); [reflexivity|lia].
Qed.

End FloatExact.

(** Inversion of a successful sequence of calls. *)
Ltac inv_Ok H :=
  repeat
    (let a := fresh "v" in
     let Ha := fresh "E" in
     apply bind_Ok in H as (a & Ha & H)).

Section Sampling.

Lemma random_interval_le (g : rng) (max : nat) :
  fst (random_interval g max) <= max.
Proof.
  unfold random_interval; simpl.
  pose proof (Nat.mod_upper_bound (g 0) (S max)). lia.
Qed.

Lemma insert_head_Permutation (x : list nat) (j a xj : nat) :
  x !! j = Some xj -> xj :: <[j := a]> x ≡ₚ a :: x.
Proof.
  revert j. induction x as [|b x IH]; intros [|j] Hj; simpl in *; try done.
  - injection Hj as ->. apply Permutation_swap.
  - rewrite (Permutation_swap b xj), (IH j Hj). apply Permutation_swap.
Qed.

Lemma swap_Permutation (x : list nat) (i j : nat) : swap x i j ≡ₚ x.
Proof.
  unfold swap. revert i j.
  induction x as [|a x IH]; intros i j; [by destruct i, j|].
  destruct i as [|i], j as [|j]; simpl.
  - reflexivity.
  - destruct (x !! j) as [xj|] eqn:Hj; [|reflexivity].
    simpl. by apply insert_head_Permutation.
  - destruct (x !! i) as [xi|] eqn:Hi; [|reflexivity].
    simpl. by apply insert_head_Permutation.
  - specialize (IH i j).
    destruct (x !! i), (x !! j); simpl; try reflexivity.
    by rewrite IH.
Qed.

Lemma shuffle_from_Permutation (i : nat) (g : rng) (x : list nat) :
  fst (shuffle_from i g x) ≡ₚ x.
Proof.
  revert g x. induction i as [|i IH]; intros g x; simpl; [reflexivity|].
  rewrite IH. apply swap_Permutation.
Qed.

Lemma permutation_Permutation (n : nat) (g : rng) :
  fst (permutation n g) ≡ₚ seq 0 n.
Proof. apply shuffle_from_Permutation. Qed.

Lemma randperm_from_Permutation (steps i : nat) (g : rng) (r : list nat) :
  fst (randperm_from steps i g r) ≡ₚ r.
Proof.
  revert i g r. induction steps as [|k IH]; intros i g r; simpl; [reflexivity|].
  rewrite IH. apply swap_Permutation.
Qed.

Lemma randperm_Permutation (n : nat) (g : rng) :
  fst (randperm n g) ≡ₚ seq 0 n.
Proof. apply randperm_from_Permutation. Qed.

End Sampling.

Section Choice.

Lemma choice_no_replace_Ok (n : nat) (size : Z) (g g' : rng) (idx : list nat) :
  choice_no_replace n size g = (Ok idx, g') ->
  (0 <= size <= Z.of_nat n)%Z /\
  idx = take (Z.to_nat size) (fst (permutation n g)) /\
  g' = snd (permutation n g).
Proof.
  unfold choice_no_replace.
  destruct (Z.ltb_spec (Z.of_nat n) size); [discriminate|].
  destruct (Z.ltb_spec size 0); [discriminate|].
  destruct (permutation n g) as [perm g1]; simpl.
  intros [= <- <-]. auto with lia.
Qed.

Lemma choice_no_replace_total (n : nat) (size : Z) (g : rng) :
  (0 <= size <= Z.of_nat n)%Z ->
  choice_no_replace n size g =
    (Ok (take (Z.to_nat size) (fst (permutation n g))), snd (permutation n g)).
Proof.
  intros Hs. unfold choice_no_replace.
  destruct (Z.ltb_spec (Z.of_nat n) size); [lia|].
  destruct (Z.ltb_spec size 0); [lia|].
  by destruct (permutation n g).
Qed.

Lemma choice_no_replace_Raise (n : nat) (size : Z) (g g' : rng) (e : exn) :
  choice_no_replace n size g = (Raise e, g') ->
  e = ValueError /\ (size < 0 \/ Z.of_nat n < size)%Z.
Proof.
  unfold choice_no_replace.
  destruct (Z.ltb_spec (Z.of_nat n) size); [intros [= <- _]; auto|].
  destruct (Z.ltb_spec size 0); [intros [= <- _]; auto|].
  by destruct (permutation n g).
Qed.

Lemma length_permutation (n : nat) (g : rng) :
  length (fst (permutation n g)) = n.
Proof. by rewrite (Permutation_length (permutation_Permutation n g)), length_seq. Qed.

Lemma choice_no_replace_length (n : nat) (size : Z) (g g' : rng) (idx : list nat) :
  choice_no_replace n size g = (Ok idx, g') ->
  length idx = Z.to_nat size.
Proof.
  intros (Hs & -> & _)%choice_no_replace_Ok.
  rewrite length_take, length_permutation. lia.
Qed.

Lemma choice_no_replace_NoDup (n : nat) (size : Z) (g g' : rng) (idx : list nat) :
  choice_no_replace n size g = (Ok idx, g') -> NoDup idx.
Proof.
  intros (_ & -> & _)%choice_no_replace_Ok.
  eapply sublist_NoDup; [|apply sublist_take].
  rewrite permutation_Permutation. apply NoDup_seq.
Qed.

Lemma choice_no_replace_bound (n : nat) (size : Z) (g g' : rng) (idx : list nat) :
  choice_no_replace n size g = (Ok idx, g') -> Forall (fun i => i < n) idx.
Proof.
  intros (_ & -> & _)%choice_no_replace_Ok.
  apply Forall_take. rewrite permutation_Permutation.
  apply Forall_seq. lia.
Qed.

(** Drawing as many indices as there are rows gives every row once. *)
Lemma choice_no_replace_all (n : nat) (g g' : rng) (idx : list nat) :
  choice_no_replace n (Z.of_nat n) g = (Ok idx, g') -> idx ≡ₚ seq 0 n.
Proof.
  intros (_ & -> & _)%choice_no_replace_Ok.
  rewrite take_ge by (rewrite length_permutation; lia).
  apply permutation_Permutation.
Qed.

End Choice.

Section Arrays.

Lemma forallb_ltb_Forall (d : nat) (idx : list nat) :
  forallb (fun i => i <? d) idx = true <-> Forall (fun i => i < d) idx.
Proof.
  rewrite forallb_forall, Forall_forall.
  split; intros H x Hx.
  - apply Nat.ltb_lt, H. by apply list_elem_of_In.
  - apply Nat.ltb_lt, H. by apply list_elem_of_In.
Qed.

Lemma take_rows_Ok (a a' : ndarray) (idx : list nat) :
  take_rows a idx = Ok a' ->
  exists d0 rest,
    shape a = d0 :: rest /\
    Forall (fun i => i < d0) idx /\
    shape a' = length idx :: rest /\
    dtype_of a' = dtype_of a /\
    (forall ix, item a' ix =
       match ix with [] => item a [] | i :: r => item a (nth i idx 0 :: r) end) /\
    forall i j, idx !! i = Some j -> row a' i = row a j.
Proof.
  unfold take_rows. destruct (shape a) as [|d0 rest] eqn:Hsh; [discriminate|].
  destruct (forallb _ idx) eqn:Hall; [|discriminate].
  intros [= <-]. exists d0, rest. simpl.
  split_and!; try done.
  - by apply forallb_ltb_Forall.
  - intros i j Hij. unfold row; simpl. rewrite Hsh; simpl.
    by rewrite (nth_lookup_Some _ _ 0 _ Hij).
Qed.

Lemma take_rows_total (a : ndarray) (idx : list nat) (d0 : nat) (rest : list nat) :
  shape a = d0 :: rest -> Forall (fun i => i < d0) idx ->
  exists a', take_rows a idx = Ok a'.
Proof.
  intros Hsh Hall. unfold take_rows. rewrite Hsh.
  apply forallb_ltb_Forall in Hall. rewrite Hall. eauto.
Qed.

Lemma take_rows_Raise (a : ndarray) (idx : list nat) (e : exn) :
  take_rows a idx = Raise e -> e = IndexError.
Proof.
  unfold take_rows. destruct (shape a); [by intros [= <-]|].
  destruct (forallb _ idx); [discriminate|by intros [= <-]].
Qed.

Lemma shape_at_0 (a : ndarray) (d0 : nat) (rest : list nat) :
  shape a = d0 :: rest -> shape_at a 0 = Ok d0.
Proof. unfold shape_at. by intros ->. Qed.

Lemma shape_at_0_inv (a : ndarray) (n : nat) :
  shape_at a 0 = Ok n -> exists rest, shape a = n :: rest.
Proof.
  unfold shape_at. destruct (shape a) as [|d0 rest]; simpl; [discriminate|].
  intros [= <-]. eauto.
Qed.

Lemma take_rows_dtype (x x' : ndarray) (idx : list nat) :
  take_rows x idx = Ok x' -> dtype_of x' = dtype_of x.
Proof. by intros (? & ? & _ & _ & _ & Hd & _)%take_rows_Ok. Qed.

Lemma take_rows_item (x x' : ndarray) (idx : list nat) (i j : nat) ix :
  take_rows x idx = Ok x' -> idx !! i = Some j ->
  item x' (i :: ix) = item x (j :: ix).
Proof.
  intros (? & ? & _ & _ & _ & _ & Hit & _)%take_rows_Ok Hij.
  by rewrite Hit, (nth_lookup_Some _ _ 0 _ Hij).
Qed.

Lemma take_rows_shape (x x' : ndarray) (idx : list nat) :
  take_rows x idx = Ok x' -> shape x' = length idx :: tail (shape x).
Proof.
  intros (? & ? & Hsh & _ & Hsh' & _)%take_rows_Ok. by rewrite Hsh', Hsh.
Qed.

End Arrays.

(* ===================================================================== *)
(** * The subsample size *)
(* ===================================================================== *)

Section SubsampleSize.

Lemma digits2_pos_le (m : positive) (w : Z) :
  (Z.pos m < 2 ^ w)%Z -> (Z.pos (digits2_pos m) <= w)%Z.
Proof.
  revert w. induction m as [m IH|m IH|]; intros w Hm.
  - assert (0 < w)%Z as Hw.
    { destruct (Z.lt_trichotomy w 0) as [?|[->|?]]; [|simpl in Hm; lia|lia].
      rewrite Z.pow_neg_r in Hm by lia. lia. }
    simpl digits2_pos. rewrite Pos2Z.inj_succ.
    specialize (IH (w - 1)%Z).
    replace w with (Z.succ (w - 1)) in Hm by lia.
    rewrite Z.pow_succ_r in Hm by lia. lia.
  - assert (0 < w)%Z as Hw.
    { destruct (Z.lt_trichotomy w 0) as [?|[->|?]]; [|simpl in Hm; lia|lia].
      rewrite Z.pow_neg_r in Hm by lia. lia. }
    simpl digits2_pos. rewrite Pos2Z.inj_succ.
    specialize (IH (w - 1)%Z).
    replace w with (Z.succ (w - 1)) in Hm by lia.
    rewrite Z.pow_succ_r in Hm by lia. lia.
  - simpl. destruct (Z.lt_trichotomy w 0) as [?|[->|?]]; [|simpl in Hm; lia|lia].
    rewrite Z.pow_neg_r in Hm by lia. lia.
Qed.

(** [int] of a mantissa shifted left by [k] with exponent [-k]. *)
Lemma int_of_float_shift (s : bool) (m : positive) (k : nat) :
  int_of_float (S754_finite s (shift_pos k m) (- Z.of_nat k))
  = Ok (if s then Z.neg m else Z.pos m).
Proof.
  unfold int_of_float. rewrite shift_pos_Z.
  destruct (Z.leb_spec 0 (- Z.of_nat k)).
  - replace (- Z.of_nat k)%Z with 0%Z by lia.
    replace (Z.of_nat k) with 0%Z by lia.
    rewrite !Z.pow_0_r, !Z.mul_1_r. by destruct s.
  - rewrite Z.opp_involutive, Z.div_mul by lia. by destruct s.
Qed.

(** An integer below [2^prec] in absolute value is converted exactly. *)
Lemma binary_normalize_int (prec emax : Z) (z : Z) :
  (1 < prec)%Z -> (prec < emax)%Z -> (Z.abs z < 2 ^ prec)%Z ->
  int_of_float (binary_normalize prec emax z 0 false) = Ok z.
Proof.
  intros Hp He Hz. destruct z as [|m|m]; [reflexivity| |];
    simpl binary_normalize;
    (rewrite binary_round_small by (try apply digits2_pos_le; done));
    (replace (Z.pos (digits2_pos m) - prec)%Z
       with (- Z.of_nat (Z.to_nat (prec - Z.pos (digits2_pos m))))%Z
       by (pose proof (digits2_pos_le m prec Hz); lia));
    apply int_of_float_shift.
Qed.

(** Below [2^53] the conversion [float(n)] does not round, and the product
    with [1.0] is the same float. *)
Lemma float_of_int_exact (z : Z) :
  (Z.abs z < 2 ^ 53)%Z ->
  exists f, float_of_int z = Ok f /\ int_of_float f = Ok z /\
            float_mul f float_one = f.
Proof.
  intros Hz. pose proof (binary_normalize_int 53 1024 z) as Hint.
  unfold float_of_int, float_mul, Py.prec, Py.emax.
  destruct z as [|m|m].
  - exists (S754_zero false). by split_and!.
  - specialize (Hint ltac:(lia) ltac:(lia) Hz). simpl binary_normalize in *.
    pose proof (digits2_pos_le m 53 Hz) as Hd.
    rewrite binary_round_small in * by lia.
    eexists. split_and!; [reflexivity|exact Hint|].
    change float_one with
      (S754_finite false (shift_pos (Z.to_nat (53 - 1)) 1) (1 - 53)).
    apply SFmul_one; try lia; try (unfold emin; lia).
    rewrite digits2_shift_pos. lia.
  - specialize (Hint ltac:(lia) ltac:(lia) Hz). simpl binary_normalize in *.
    pose proof (digits2_pos_le m 53 Hz) as Hd.
    rewrite binary_round_small in * by lia.
    eexists. split_and!; [reflexivity|exact Hint|].
    change float_one with
      (S754_finite false (shift_pos (Z.to_nat (53 - 1)) 1) (1 - 53)).
    apply SFmul_one; try lia; try (unfold emin; lia).
    rewrite digits2_shift_pos. lia.
Qed.

(** With [dataset_percent = 1.0] the size is the number of rows. *)
Lemma subsample_size_one (n : nat) :
  (Z.of_nat n < 2 ^ 53)%Z ->
  subsample_size n float_one = Ok (Z.of_nat n).
Proof.
  intros Hn. destruct (float_of_int_exact (Z.of_nat n)) as (f & Hf & Hi & Hm);
    [lia|].
  unfold subsample_size, int_mul_float. rewrite Hf. simpl.
  by rewrite Hm.
Qed.

End SubsampleSize.

(* ===================================================================== *)
(** * Properties of [make_loader] *)
(* ===================================================================== *)

Section MakeLoader.

Implicit Types (self : SSMDataModule.t) (fs : filesystem) (g : rng).
Implicit Types (a : arrays) (dl : DataLoader SSMDataset.t).

(** A successful call went through the four phases. *)
Lemma make_loader_Ok self fs mode evaluation shuffle g dl g' :
  make_loader self fs mode evaluation shuffle g = (Ok dl, g') ->
  exists a rand_idx a',
    load_sources self fs (default "train" mode) = Ok a /\
    draw_rand_idx self (a_images a) g = (Ok rand_idx, g') /\
    apply_rand_idx a rand_idx = Ok a' /\
    build_loader self (default "train" mode) (default false evaluation)
      (default true shuffle) a' = Ok dl.
Proof.
  unfold make_loader.
  destruct (load_sources _ _ _) as [a|e]; [|discriminate].
  destruct (draw_rand_idx _ _ _) as [[rand_idx|e] g1] eqn:Hd; [|discriminate].
  destruct (apply_rand_idx a rand_idx) as [a'|e] eqn:Ha'; simpl; [|discriminate].
  intros [= Hb <-]. exists a, rand_idx, a'. auto.
Qed.

Lemma draw_rand_idx_Ok self (images : ndarray) g rand_idx g' :
  draw_rand_idx self images g = (Ok rand_idx, g') ->
  exists n size,
    shape_at images 0 = Ok n /\
    subsample_size n (Cfg.dataset_percent (cfg self)) = Ok size /\
    choice_no_replace n size g = (Ok rand_idx, g').
Proof.
  unfold draw_rand_idx.
  destruct (shape_at images 0) as [n|e] eqn:Hn; simpl; [|discriminate].
  destruct (subsample_size n _) as [size|e] eqn:Hs; simpl; [|discriminate].
  intros H. exists n, size. auto.
Qed.

Lemma apply_rand_idx_Ok a rand_idx a' :
  apply_rand_idx a rand_idx = Ok a' ->
  take_rows (a_images a) rand_idx = Ok (a_images a') /\
  take_rows (a_labels a) rand_idx = Ok (a_labels a') /\
  take_rows (a_states a) rand_idx = Ok (a_states a') /\
  take_rows (a_controls a) rand_idx = Ok (a_controls a').
Proof.
  unfold apply_rand_idx. intros H. inv_Ok H.
  injection H as <-. simpl. auto.
Qed.

Lemma build_loader_Ok self mode evaluation shuffle a dl :
  build_loader self mode evaluation shuffle a = Ok dl ->
  dataset dl = dataset_of a /\
  batch_size dl = Cfg.batch_size (cfg self) /\
  (0 < Cfg.batch_size (cfg self))%Z /\
  if resampling mode evaluation then
    sampler dl = RandomSampler (dataset_of a) true
                   (Cfg.num_steps (cfg self) * Cfg.batch_size (cfg self)) /\
    (0 < Cfg.num_steps (cfg self) * Cfg.batch_size (cfg self))%Z /\
    drop_last dl = true
  else
    drop_last dl = false /\
    if shuffle then
      exists n, shape_at (a_images a) 0 = Ok n /\ 0 < n /\
        sampler dl = RandomSampler (dataset_of a) false (Z.of_nat n)
    else sampler dl = SequentialSampler (dataset_of a).
Proof.
  unfold build_loader, resampling, from_numpy, SSMDataset.__init__, dataset_of.
  destruct (bool_decide (mode = "train") && negb evaluation).
  - unfold RandomSampler_init, DataLoader_init; simpl.
    destruct (Z.leb_spec (Cfg.num_steps (cfg self) * Cfg.batch_size (cfg self)) 0);
      simpl; [discriminate|].
    destruct (Z.leb_spec (Cfg.batch_size (cfg self)) 0); [discriminate|].
    intros [= <-]. simpl. split_and!; done.
  - unfold DataLoader_init. destruct shuffle.
    + unfold RandomSampler_init; simpl. unfold SSMDataset.__len__; simpl.
      destruct (shape_at (a_images a) 0) as [n|e]; simpl; [|discriminate].
      destruct (Z.leb_spec (Z.of_nat n) 0); simpl; [discriminate|].
      destruct (Z.leb_spec (Cfg.batch_size (cfg self)) 0); [discriminate|].
      intros [= <-]. simpl. split_and!; try done. exists n. auto with lia.
    + simpl.
      destruct (Z.leb_spec (Cfg.batch_size (cfg self)) 0); [discriminate|].
      intros [= <-]. simpl. split_and!; done.
Qed.

End MakeLoader.

Section Totality.

Implicit Types (self : SSMDataModule.t) (fs : filesystem) (g : rng).
Implicit Types (z : npzfile) (a : arrays) (dl : DataLoader SSMDataset.t).

Lemma take_rows_has_rows (x : ndarray) (idx : list nat) (n : nat) :
  has_rows x n -> Forall (fun i => i < n) idx ->
  exists x', take_rows x idx = Ok x'.
Proof.
  unfold has_rows. destruct (shape x) as [|d rest] eqn:Hsh; [done|].
  intros Hn Hidx. apply take_rows_total with d rest; [done|].
  eapply Forall_impl; [exact Hidx|]. simpl. lia.
Qed.

Lemma build_loader_total self (mode : string) (evaluation shuffle : bool) a :
  (0 < Cfg.batch_size (cfg self))%Z ->
  (if resampling mode evaluation then (0 < Cfg.num_steps (cfg self))%Z
   else if shuffle then 0 < n_rows (a_images a) else True) ->
  exists dl, build_loader self mode evaluation shuffle a = Ok dl.
Proof.
  intros Hbs Hmode.
  unfold build_loader, resampling, DataLoader_init, RandomSampler_init,
    from_numpy in *.
  destruct (bool_decide (mode = "train") && negb evaluation); simpl.
  - destruct (Z.leb_spec
      (Cfg.num_steps (cfg self) * Cfg.batch_size (cfg self)) 0); [nia|].
    simpl. destruct (Z.leb_spec (Cfg.batch_size (cfg self)) 0); [lia|eauto].
  - destruct shuffle; simpl.
    + unfold SSMDataset.__len__, shape_at, n_rows in *. simpl.
      destruct (shape (a_images a)) as [|d rest]; simpl in *; [lia|].
      destruct (Z.leb_spec (Z.of_nat d) 0); [lia|]. simpl.
      destruct (Z.leb_spec (Cfg.batch_size (cfg self)) 0); [lia|eauto].
    + destruct (Z.leb_spec (Cfg.batch_size (cfg self)) 0); [lia|eauto].
Qed.

(** Sufficient conditions for a loader (used to obtain loaders on concrete
    inputs without evaluating them). *)
Lemma make_loader_total self fs mode evaluation shuffle g a n size :
  load_sources self fs (default "train" mode) = Ok a ->
  shape_at (a_images a) 0 = Ok n ->
  has_rows (a_labels a) n -> has_rows (a_states a) n ->
  has_rows (a_controls a) n ->
  subsample_size n (Cfg.dataset_percent (cfg self)) = Ok size ->
  (0 <= size <= Z.of_nat n)%Z ->
  (0 < Cfg.batch_size (cfg self))%Z ->
  (if resampling (default "train" mode) (default false evaluation)
   then (0 < Cfg.num_steps (cfg self))%Z
   else if default true shuffle then (0 < size)%Z else True) ->
  exists dl,
    make_loader self fs mode evaluation shuffle g
    = (Ok dl, snd (permutation n g)).
Proof.
  intros Hload Hn Hl Hs Hc Hsize Hrange Hbs Hmode.
  unfold make_loader. rewrite Hload.
  unfold draw_rand_idx. rewrite Hn. simpl. rewrite Hsize. simpl.
  rewrite choice_no_replace_total by done.
  set (idx := take (Z.to_nat size) (fst (permutation n g))).
  assert (Forall (fun i => i < n) idx) as Hidx.
  { apply Forall_take. rewrite permutation_Permutation.
    apply Forall_seq. lia. }
  assert (length idx = Z.to_nat size) as Hlen.
  { subst idx. rewrite length_take, length_permutation. lia. }
  assert (has_rows (a_images a) n) as Hi.
  { apply shape_at_0_inv in Hn as [rest Hsh]. unfold has_rows.
    by rewrite Hsh. }
  destruct (take_rows_has_rows _ _ _ Hi Hidx) as [xi Hxi].
  destruct (take_rows_has_rows _ _ _ Hl Hidx) as [xl Hxl].
  destruct (take_rows_has_rows _ _ _ Hs Hidx) as [xs Hxs].
  destruct (take_rows_has_rows _ _ _ Hc Hidx) as [xc Hxc].
  unfold apply_rand_idx. rewrite Hxi, Hxl, Hxs, Hxc. simpl.
  destruct (build_loader_total self (default "train" mode)
              (default false evaluation) (default true shuffle)
              (mk_arrays xi xl xs xc) Hbs) as [dl Hdl].
  - destruct (resampling _ _); [done|].
    destruct (default true shuffle); [|done].
    simpl. unfold n_rows. rewrite (take_rows_shape _ _ _ Hxi). simpl. lia.
  - rewrite Hdl. eauto.
Qed.

(** The toy archive of three samples gives a loader for every split and
    setting, with [dataset_percent = 1.0] and positive sizes. *)
Lemma toy_loader (with_control : bool) (batch_size num_steps : Z) mode
    evaluation shuffle g :
  (0 < batch_size)%Z -> (0 < num_steps)%Z ->
  mode = Some "train" \/ mode = Some "val" \/ mode = Some "test" ->
  exists dl g',
    make_loader (Toy.module float_one batch_size num_steps)
      (Toy.fs (if with_control then Toy.npz_with_control 3 else Toy.npz 3))
      mode evaluation shuffle g = (Ok dl, g').
Proof.
  intros Hbs Hns Hmode.
  destruct with_control, Hmode as [->|[->| ->]];
    (match goal with
     | |- exists dl g', make_loader ?s ?f ?m ?e ?sh ?g0 = _ =>
         edestruct (make_loader_total s f m e sh g0)
           with (n := 3) (size := 3%Z) as [dl Hdl]
     end;
     [reflexivity|reflexivity|vm_compute; lia|vm_compute; lia|vm_compute; lia
     |apply (subsample_size_one 3); reflexivity|lia|exact Hbs| |by eauto];
     destruct (resampling _ _); [exact Hns|];
     by destruct (default true shuffle)).
Qed.

End Totality.

Section Alignment.

Implicit Types (self : SSMDataModule.t) (fs : filesystem) (g : rng).
Implicit Types (a : arrays) (dl : DataLoader SSMDataset.t).

(** What one index set does to one array. *)
Lemma take_rows_view (x x' : ndarray) (idx : list nat) :
  take_rows x idx = Ok x' ->
  shape_at x' 0 = Ok (length idx) /\
  forall i j, idx !! i = Some j -> row x' i = row x j.
Proof.
  intros (d0 & rest & _ & _ & Hsh & _ & _ & Hrow)%take_rows_Ok.
  split; [by apply shape_at_0 with rest|exact Hrow].
Qed.

(** C1. After a successful [make_loader], one index set [rand_idx], drawn
    by the single call to [np.random.choice], has been applied to all four
    arrays: each array of the dataset has as many rows as the computed
    subsample size, and row [i] of each of them is row [rand_idx[i]] of the
    corresponding array read from the archive. *)
Theorem make_loader_one_index_set self fs mode evaluation shuffle g dl g' :
  make_loader self fs mode evaluation shuffle g = (Ok dl, g') ->
  exists a n size rand_idx,
    load_sources self fs (default "train" mode) = Ok a /\
    shape_at (a_images a) 0 = Ok n /\
    subsample_size n (Cfg.dataset_percent (cfg self)) = Ok size /\
    choice_no_replace n size g = (Ok rand_idx, g') /\
    length rand_idx = Z.to_nat size /\
    shape_at (SSMDataset.images (dataset dl)) 0 = Ok (Z.to_nat size) /\
    shape_at (SSMDataset.labels (dataset dl)) 0 = Ok (Z.to_nat size) /\
    shape_at (SSMDataset.states (dataset dl)) 0 = Ok (Z.to_nat size) /\
    shape_at (SSMDataset.controls (dataset dl)) 0 = Ok (Z.to_nat size) /\
    forall i j, rand_idx !! i = Some j ->
      row (SSMDataset.images (dataset dl)) i = row (a_images a) j /\
      row (SSMDataset.labels (dataset dl)) i = row (a_labels a) j /\
      row (SSMDataset.states (dataset dl)) i = row (a_states a) j /\
      row (SSMDataset.controls (dataset dl)) i = row (a_controls a) j.
Proof.
  intros (a & rand_idx & a' & Hload & Hdraw & Happly & Hbuild)%make_loader_Ok.
  apply draw_rand_idx_Ok in Hdraw as (n & size & Hn & Hsize & Hchoice).
  apply apply_rand_idx_Ok in Happly as (Hi & Hl & Hs & Hc).
  apply build_loader_Ok in Hbuild as (-> & _).
  pose proof (choice_no_replace_length _ _ _ _ _ Hchoice) as Hlen.
  apply take_rows_view in Hi as [Hi1 Hi2], Hl as [Hl1 Hl2],
    Hs as [Hs1 Hs2], Hc as [Hc1 Hc2].
  rewrite Hlen in Hi1, Hl1, Hs1, Hc1.
  exists a, n, size, rand_idx. simpl. split_and!; try done.
  intros i j Hij. auto.
Qed.

End Alignment.

(* ===================================================================== *)
(** * The accessors *)
(* ===================================================================== *)

Section Accessors.

Implicit Types (self : SSMDataModule.t) (fs : filesystem) (g : rng).

(** Each accessor is [make_loader] at fixed arguments: the defaults
    that the accessor leaves out are [evaluation=False] and, for
    [train_dataloader], [shuffle=True]. *)
Theorem accessors_are_make_loader self fs g :
  train_dataloader self fs g =
    make_loader self fs (Some "train") (Some false) (Some true) g /\
  evaluate_train_dataloader self fs g =
    make_loader self fs (Some "train") (Some true) (Some false) g /\
  val_dataloader self fs g =
    make_loader self fs (Some "val") (Some false) (Some false) g /\
  test_dataloader self fs g =
    make_loader self fs (Some "test") (Some false) (Some false) g.
Proof.
  unfold train_dataloader, evaluate_train_dataloader, val_dataloader,
    test_dataloader, make_loader.
  simpl. split_and!; reflexivity.
Qed.

End Accessors.

(* ===================================================================== *)
(** * The dataset *)
(* ===================================================================== *)

Section Dataset.

Implicit Types (ds : SSMDataset.t) (x : Tensor).

Lemma index_row_Ok x (i : nat) :
  i < n_rows x -> index_row x (Z.of_nat i) = Ok (row x i).
Proof.
  unfold index_row, n_rows. destruct (shape x) as [|d0 rest]; simpl; [lia|].
  intros Hi.
  destruct (Z.ltb_spec (Z.of_nat i) (- Z.of_nat d0)); [lia|].
  destruct (Z.leb_spec (Z.of_nat d0) (Z.of_nat i)); [lia|]. simpl.
  destruct (Z.ltb_spec (Z.of_nat i) 0); [lia|].
  by rewrite Nat2Z.id.
Qed.

Lemma index_row_Raise x (i : nat) :
  n_rows x <= i -> index_row x (Z.of_nat i) = Raise IndexError.
Proof.
  unfold index_row, n_rows. destruct (shape x) as [|d0 rest]; simpl; [done|].
  intros Hi.
  destruct (Z.ltb_spec (Z.of_nat i) (- Z.of_nat d0)); [done|].
  destruct (Z.leb_spec (Z.of_nat d0) (Z.of_nat i)); [done|lia].
Qed.

Lemma index_row_is_Ok x (i : nat) :
  is_Ok (index_row x (Z.of_nat i)) <-> i < n_rows x.
Proof.
  split.
  - intros [r Hr]. destruct (Nat.lt_ge_cases i (n_rows x)) as [|Hge]; [done|].
    rewrite (index_row_Raise _ _ Hge) in Hr. discriminate.
  - intros Hi. exists (row x i). by apply index_row_Ok.
Qed.

Lemma getitem_Ok ds (i : nat) :
  i < n_rows (SSMDataset.images ds) -> i < n_rows (SSMDataset.states ds) ->
  i < n_rows (SSMDataset.controls ds) -> i < n_rows (SSMDataset.labels ds) ->
  SSMDataset.__getitem__ ds (Z.of_nat i) = Ok (sample_of ds i).
Proof.
  intros Hi Hs Hc Hl. unfold SSMDataset.__getitem__.
  rewrite !index_row_Ok by done. reflexivity.
Qed.

Lemma getitem_is_Ok ds (i : nat) :
  is_Ok (SSMDataset.__getitem__ ds (Z.of_nat i)) <->
  i < n_rows (SSMDataset.images ds) /\ i < n_rows (SSMDataset.states ds) /\
  i < n_rows (SSMDataset.controls ds) /\ i < n_rows (SSMDataset.labels ds).
Proof.
  split.
  - intros [s Hs]. unfold SSMDataset.__getitem__ in Hs. inv_Ok Hs.
    rewrite <- !index_row_is_Ok. unfold is_Ok. eauto 10.
  - intros (Hi & Hs & Hc & Hl). exists (sample_of ds i). by apply getitem_Ok.
Qed.

Lemma len_n_rows ds (n : nat) :
  SSMDataset.__len__ ds = Ok n -> n_rows (SSMDataset.images ds) = n.
Proof.
  unfold SSMDataset.__len__. intros (rest & Hsh)%shape_at_0_inv.
  unfold n_rows. by rewrite Hsh.
Qed.

(** X4. The length of an [SSMDataset] is the first dimension of [images]
    and of nothing else; [__init__] stores the four arrays unchecked; and
    [__getitem__] at the indices below the length succeeds exactly when
    the other three arrays have at least that many rows (with no index
    below the length there is nothing to require). *)
Theorem SSMDataset_len_unchecked (images labels states controls : Tensor) :
  let ds := SSMDataset.__init__ images labels states controls in
  SSMDataset.__len__ ds = shape_at images 0 /\
  (forall labels' states' controls',
     SSMDataset.__len__ (SSMDataset.__init__ images labels' states' controls')
     = SSMDataset.__len__ ds) /\
  (SSMDataset.images ds = images /\ SSMDataset.labels ds = labels /\
   SSMDataset.states ds = states /\ SSMDataset.controls ds = controls) /\
  forall n, SSMDataset.__len__ ds = Ok n ->
    ((forall i, i < n -> is_Ok (SSMDataset.__getitem__ ds (Z.of_nat i))) <->
     (n = 0 \/ (n <= n_rows labels /\ n <= n_rows states /\
                n <= n_rows controls))).
Proof.
  simpl. split_and!; try done.
  intros n Hn. apply len_n_rows in Hn. simpl in Hn. split.
  - intros Hall. destruct n as [|n]; [by left|right].
    specialize (Hall n (Nat.lt_succ_diag_r n)).
    apply getitem_is_Ok in Hall. simpl in Hall. lia.
  - intros [->|(Hl & Hs & Hc)] i Hi; [lia|].
    apply getitem_is_Ok. simpl. lia.
Qed.

End Dataset.

(* ===================================================================== *)
(** * Failures of the archive *)
(* ===================================================================== *)

Section ArchiveErrors.

Implicit Types (self : SSMDataModule.t) (fs : filesystem) (g : rng).
Implicit Types (z : npzfile).

Lemma contains_getitem z (key : string) :
  contains z key = true -> exists x, Np.getitem z key = Ok x.
Proof.
  unfold contains, Np.getitem. intros [x Hx]%bool_decide_eq_true.
  rewrite Hx. eauto.
Qed.

(** What [load_sources] raises, and when. *)
Lemma load_sources_Raise self fs (mode : string) (e : exn) :
  load_sources self fs mode = Raise e ->
  (e = FileNotFoundError /\ fs !! npz_path self mode = None) \/
  (e = KeyError /\ exists z, fs !! npz_path self mode = Some z /\
                             ~ has_required_keys z) \/
  (e = IndexError /\ exists z, fs !! npz_path self mode = Some z /\
                               has_required_keys z).
Proof.
  unfold load_sources, Np.load, Np.getitem, has_required_keys.
  destruct (fs !! npz_path self mode) as [z|]; simpl;
    [|intros [= <-]; by left].
  destruct (z !! "image") as [image|] eqn:Hi; simpl;
    [|intros [= <-]; right; left; split; [done|exists z; split; [done|]];
      rewrite Hi; by intros [[? [=]] _]].
  destruct (z !! "label") as [label|] eqn:Hl; simpl;
    [|intros [= <-]; right; left; split; [done|exists z; split; [done|]];
      rewrite Hl; by intros (_ & [? [=]] & _)].
  destruct (z !! "state") as [state|] eqn:Hs; simpl;
    [|intros [= <-]; right; left; split; [done|exists z; split; [done|]];
      rewrite Hs; by intros (_ & _ & [? [=]])].
  intros H. right; right.
  assert (e = IndexError) as ->.
  { destruct (slice_axis2 2 (astype Float32 state)) as [states|e'] eqn:Hsl;
      simpl in H.
    - destruct (contains z "control") eqn:Hc.
      + apply bool_decide_eq_true in Hc as [x Hx]. rewrite Hx in H.
        discriminate.
      + unfold shape_at in H. simpl in H.
        destruct (shape image !! 0); simpl in H; [|by injection H].
        destruct (shape image !! 1); simpl in H;
          [discriminate|by injection H].
    - injection H as <-. unfold slice_axis2 in Hsl.
      destruct (shape (astype Float32 state)) as [|? [|? [|? ?]]];
        try discriminate; by injection Hsl. }
  split; [done|]. exists z. eauto.
Qed.

Lemma load_sources_missing_file self fs (mode : string) :
  fs !! npz_path self mode = None ->
  load_sources self fs mode = Raise FileNotFoundError.
Proof. unfold load_sources, Np.load. by intros ->. Qed.

Lemma load_sources_missing_key self fs (mode : string) z :
  fs !! npz_path self mode = Some z -> ~ has_required_keys z ->
  load_sources self fs mode = Raise KeyError.
Proof.
  unfold load_sources, Np.load, Np.getitem, has_required_keys.
  intros -> Hk. simpl.
  destruct (z !! "image") as [image|] eqn:Hi; simpl; [|done].
  destruct (z !! "label") as [label|] eqn:Hl; simpl; [|done].
  destruct (z !! "state") as [state|] eqn:Hs; simpl; [|done].
  destruct Hk. eauto.
Qed.

Lemma subsample_size_Raise (n : nat) (p : float) (e : exn) :
  subsample_size n p = Raise e -> e = ValueError \/ e = OverflowError.
Proof.
  unfold subsample_size, int_mul_float, float_of_int.
  destruct (binary_normalize _ _ _ _ _); simpl;
    try (intros [= <-]; by auto);
    match goal with
    | |- int_of_float ?x = _ -> _ =>
        destruct x; simpl; intros [= <-]; auto
    end.
Qed.

Lemma draw_rand_idx_Raise self (images : ndarray) g g' (e : exn) :
  draw_rand_idx self images g = (Raise e, g') -> later_exn e.
Proof.
  unfold draw_rand_idx, later_exn, shape_at.
  destruct (shape images !! 0) as [n|]; simpl; [|intros [= <- _]; auto].
  destruct (subsample_size n _) as [size|e'] eqn:Hs; simpl.
  - intros [-> _]%choice_no_replace_Raise. auto.
  - intros [= <- _]. apply subsample_size_Raise in Hs as [->| ->]; auto.
Qed.

Lemma apply_rand_idx_Raise (a : arrays) (idx : list nat) (e : exn) :
  apply_rand_idx a idx = Raise e -> e = IndexError.
Proof.
  unfold apply_rand_idx. intros H.
  repeat (apply bind_Raise in H as [H|(? & _ & H)];
          [by apply take_rows_Raise in H|]).
  discriminate.
Qed.

Lemma build_loader_Raise self (mode : string) (evaluation shuffle : bool)
    (a : arrays) (e : exn) :
  build_loader self mode evaluation shuffle a = Raise e -> later_exn e.
Proof.
  unfold build_loader, later_exn, DataLoader_init, RandomSampler_init,
    from_numpy.
  set (ns := (Cfg.num_steps (cfg self) * Cfg.batch_size (cfg self))%Z).
  set (bs := Cfg.batch_size (cfg self)).
  destruct (_ && _); simpl.
  - destruct (ns <=? 0)%Z; simpl; [intros [= <-]; auto|].
    destruct (bs <=? 0)%Z; [intros [= <-]; auto|discriminate].
  - destruct shuffle; simpl.
    + unfold SSMDataset.__len__, shape_at; simpl.
      destruct (shape (a_images a) !! 0) as [n|]; simpl;
        [|intros [= <-]; auto].
      destruct (Z.of_nat n <=? 0)%Z; simpl; [intros [= <-]; auto|].
      destruct (bs <=? 0)%Z; [intros [= <-]; auto|discriminate].
    + destruct (bs <=? 0)%Z; [intros [= <-]; auto|discriminate].
Qed.

(** What [make_loader] raises after the archive was read. *)
Lemma make_loader_Raise_later self fs mode evaluation shuffle g g' a (e : exn) :
  load_sources self fs (default "train" mode) = Ok a ->
  make_loader self fs mode evaluation shuffle g = (Raise e, g') ->
  later_exn e.
Proof.
  unfold make_loader. intros ->.
  destruct (draw_rand_idx _ _ _) as [[rand_idx|e'] g1] eqn:Hd.
  - destruct (apply_rand_idx a rand_idx) as [a'|e'] eqn:Ha; simpl.
    + intros [= Hb _]. by apply build_loader_Raise in Hb.
    + intros [= <- _]. apply apply_rand_idx_Raise in Ha as ->.
      by left.
  - intros [= <- _]. by apply draw_rand_idx_Raise in Hd.
Qed.

(** X3. [make_loader] raises [FileNotFoundError] exactly when the archive
    of the split is absent, and [KeyError] exactly when the archive is
    there and lacks [image], [label] or [state]; in both cases the call
    ends there: nothing has been drawn from the generator, and no default
    stands in for the missing data. *)
Theorem make_loader_archive_errors self fs mode evaluation shuffle g :
  let path := npz_path self (default "train" mode) in
  let r := make_loader self fs mode evaluation shuffle g in
  (fst r = Raise FileNotFoundError <-> fs !! path = None) /\
  (fst r = Raise KeyError <->
     exists z, fs !! path = Some z /\ ~ has_required_keys z) /\
  (fst r = Raise FileNotFoundError \/ fst r = Raise KeyError -> snd r = g).
Proof.
  simpl.
  destruct (load_sources self fs (default "train" mode)) as [a|e] eqn:Hload.
  - assert (forall e, fst (make_loader self fs mode evaluation shuffle g)
                      = Raise e -> later_exn e) as Hlater.
    { intros e He.
      destruct (make_loader self fs mode evaluation shuffle g) as [r g'] eqn:Hm.
      simpl in He; subst r. eapply make_loader_Raise_later; eauto. }
    assert (is_Some (fs !! npz_path self (default "train" mode)) /\
            forall z, fs !! npz_path self (default "train" mode) = Some z ->
                      has_required_keys z) as [Hfile Hkeys].
    { split.
      - destruct (fs !! npz_path self (default "train" mode)) eqn:Hf; [eauto|].
        rewrite (load_sources_missing_file _ _ _ Hf) in Hload. discriminate.
      - intros z Hz. destruct (decide (is_Some (z !! "image")));
          [destruct (decide (is_Some (z !! "label")));
           [destruct (decide (is_Some (z !! "state")))|]|];
          try done;
          (rewrite (load_sources_missing_key _ _ _ z Hz) in Hload;
           [discriminate|unfold has_required_keys; tauto]). }
    split_and!.
    + split.
      * intros [?|[?|?]]%Hlater; discriminate.
      * intros Hn. rewrite Hn in Hfile. by destruct Hfile.
    + split.
      * intros [?|[?|?]]%Hlater; discriminate.
      * intros (z & Hz & Hk). destruct Hk. by apply Hkeys.
    + intros [[?|[?|?]]%Hlater|[?|[?|?]]%Hlater]; discriminate.
  - assert (make_loader self fs mode evaluation shuffle g = (Raise e, g)) as ->.
    { unfold make_loader. by rewrite Hload. }
    simpl. apply load_sources_Raise in Hload
      as [[-> Hf]|[(-> & z & Hz & Hk)|(-> & z & Hz & Hk)]].
    + split_and!; [by split| |done].
      split; [discriminate|]. intros (z & Hz & _). congruence.
    + split_and!; [|split; by eauto|done].
      split; [discriminate|]. congruence.
    + split_and!; [| |by intros [|]].
      * split; [discriminate|congruence].
      * split; [discriminate|]. intros (z' & Hz' & Hk').
        destruct Hk'. congruence.
Qed.

End ArchiveErrors.


(* ===================================================================== *)
(** * What is read from the archive *)
(* ===================================================================== *)

Section Sources.

Implicit Types (self : SSMDataModule.t) (fs : filesystem) (g : rng).
Implicit Types (z : npzfile) (a : arrays).

Lemma slice_axis2_Ok (k : nat) (x x' : ndarray) :
  slice_axis2 k x = Ok x' ->
  exists d0 d1 d2 rest,
    shape x = d0 :: d1 :: d2 :: rest /\
    shape x' = d0 :: d1 :: Nat.min k d2 :: rest /\
    dtype_of x' = dtype_of x /\ item x' = item x.
Proof.
  unfold slice_axis2.
  destruct (shape x) as [|d0 [|d1 [|d2 rest]]] eqn:Hsh; try discriminate.
  intros [= <-]. exists d0, d1, d2, rest. by simpl.
Qed.

(** A successful [load_sources]: where each of the four arrays comes from. *)
Lemma load_sources_Ok self fs (mode : string) a :
  load_sources self fs mode = Ok a ->
  exists z image label state,
    fs !! npz_path self mode = Some z /\
    z !! "image" = Some image /\ z !! "label" = Some label /\
    z !! "state" = Some state /\
    a_images a = astype Float32 image /\
    a_labels a = astype Int16 label /\
    slice_axis2 2 (astype Float32 state) = Ok (a_states a) /\
    match z !! "control" with
    | Some control => a_controls a = control
    | None =>
        exists d0 d1, shape image !! 0 = Some d0 /\ shape image !! 1 = Some d1 /\
                      a_controls a = zeros [d0; d1; 1] Float32
    end.
Proof.
  unfold load_sources, Np.load, Np.getitem.
  destruct (fs !! npz_path self mode) as [z|]; simpl; [|discriminate].
  destruct (z !! "image") as [image|] eqn:Hi; simpl; [|discriminate].
  destruct (z !! "label") as [label|] eqn:Hl; simpl; [|discriminate].
  destruct (z !! "state") as [state|] eqn:Hs; simpl; [|discriminate].
  destruct (slice_axis2 2 (astype Float32 state)) as [states|] eqn:Hsl;
    simpl; [|discriminate].
  unfold contains.
  destruct (z !! "control") as [control|] eqn:Hc.
  - rewrite bool_decide_eq_true_2 by eauto. simpl. intros [= <-].
    exists z, image, label, state. rewrite Hc. by split_and!.
  - rewrite bool_decide_eq_false_2 by (by intros [? [=]]).
    unfold shape_at. simpl.
    destruct (shape image !! 0) as [d0|] eqn:H0; simpl; [|discriminate].
    destruct (shape image !! 1) as [d1|] eqn:H1; simpl; [|discriminate].
    intros [= <-]. exists z, image, label, state. rewrite Hc.
    split_and!; try done. by exists d0, d1.
Qed.

End Sources.

Section View.

Implicit Types (self : SSMDataModule.t) (fs : filesystem) (g : rng).
Implicit Types (z : npzfile) (a : arrays) (dl : DataLoader SSMDataset.t).

(** The dataset of a successful call: the arrays read, the index set drawn,
    and the four selections. *)
Lemma make_loader_view self fs mode evaluation shuffle g dl g' :
  make_loader self fs mode evaluation shuffle g = (Ok dl, g') ->
  exists a rand_idx,
    load_sources self fs (default "train" mode) = Ok a /\
    draw_rand_idx self (a_images a) g = (Ok rand_idx, g') /\
    take_rows (a_images a) rand_idx = Ok (SSMDataset.images (dataset dl)) /\
    take_rows (a_labels a) rand_idx = Ok (SSMDataset.labels (dataset dl)) /\
    take_rows (a_states a) rand_idx = Ok (SSMDataset.states (dataset dl)) /\
    take_rows (a_controls a) rand_idx = Ok (SSMDataset.controls (dataset dl)).
Proof.
  intros (a & rand_idx & a' & Hload & Hdraw & Happly & Hbuild)%make_loader_Ok.
  apply apply_rand_idx_Ok in Happly as (Hi & Hl & Hs & Hc).
  apply build_loader_Ok in Hbuild as (-> & _).
  exists a, rand_idx. by split_and!.
Qed.

Lemma index_row_inv (x r : Tensor) (i : Z) :
  index_row x i = Ok r ->
  exists j, r = row x j /\ j < n_rows x /\
            (Z.of_nat j = if (i <? 0)%Z then i + Z.of_nat (n_rows x) else i)%Z.
Proof.
  unfold index_row, n_rows.
  destruct (shape x) as [|d0 rest]; simpl; [discriminate|].
  destruct (Z.ltb_spec i (- Z.of_nat d0)); simpl; [discriminate|].
  destruct (Z.leb_spec (Z.of_nat d0) i); [discriminate|].
  intros [= <-]. eexists. split; [reflexivity|].
  destruct (Z.ltb_spec i 0); lia.
Qed.

End View.

Section Elements.

Implicit Types (self : SSMDataModule.t) (fs : filesystem) (g : rng).
Implicit Types (z : npzfile) (a : arrays) (dl : DataLoader SSMDataset.t).

(** X1. Element types of the items.  Images and states are float32 and
    labels int16, whatever the archive stores, and the index is a float32
    tensor; a [control] array stored in the archive keeps the element type
    it has there (it is not converted), and only the substitute for a
    missing [control] is float32. *)
Theorem make_loader_element_types self fs mode evaluation shuffle g dl g' :
  make_loader self fs mode evaluation shuffle g = (Ok dl, g') ->
  exists z,
    fs !! npz_path self (default "train" mode) = Some z /\
    forall idx s, SSMDataset.__getitem__ (dataset dl) idx = Ok s ->
      dtype_of (s_index s) = Float32 /\
      dtype_of (s_image s) = Float32 /\
      dtype_of (s_state s) = Float32 /\
      dtype_of (s_label s) = Int16 /\
      dtype_of (s_control s) =
        match z !! "control" with
        | Some control => dtype_of control
        | None => Float32
        end.
Proof.
  intros (a & rand_idx & Hload & _ & Hi & Hl & Hs & Hc)%make_loader_view.
  apply load_sources_Ok in Hload
    as (z & image & label & state & Hz & _ & _ & _ & Hai & Hal & Hsl & Hac).
  apply slice_axis2_Ok in Hsl as (? & ? & ? & ? & _ & _ & Hds & _).
  apply take_rows_dtype in Hi, Hl, Hs, Hc.
  rewrite Hai in Hi. rewrite Hal in Hl. rewrite Hds in Hs.
  exists z. split; [done|]. intros idx s Hget.
  unfold SSMDataset.__getitem__ in Hget. inv_Ok Hget. injection Hget as <-.
  repeat match goal with
         | H : index_row _ _ = Ok _ |- _ =>
             apply index_row_inv in H as (? & -> & _)
         end.
  simpl. rewrite Hi, Hl, Hs, Hc. split_and!; try done.
  destruct (z !! "control"); [by rewrite Hac|].
  destruct Hac as (? & ? & _ & _ & ->). done.
Qed.

(** X7. Shapes of the dataset.  With [k] the subsample size, the four
    arrays have [k] rows; images and labels keep the other axes of the
    archive, states keep at most the first two channels of the third axis,
    a stored [control] keeps its other axes, and the substitute for a
    missing [control] has shape [(k, time, 1)]. *)
Theorem make_loader_shapes self fs mode evaluation shuffle g dl g' :
  make_loader self fs mode evaluation shuffle g = (Ok dl, g') ->
  exists z image label state n size,
    fs !! npz_path self (default "train" mode) = Some z /\
    z !! "image" = Some image /\ z !! "label" = Some label /\
    z !! "state" = Some state /\
    shape_at image 0 = Ok n /\
    subsample_size n (Cfg.dataset_percent (cfg self)) = Ok size /\
    let k := Z.to_nat size in
    shape (SSMDataset.images (dataset dl)) = k :: tail (shape image) /\
    shape (SSMDataset.labels (dataset dl)) = k :: tail (shape label) /\
    (exists d0 d1 d2 rest,
       shape state = d0 :: d1 :: d2 :: rest /\
       shape (SSMDataset.states (dataset dl))
       = k :: d1 :: Nat.min 2 d2 :: rest) /\
    match z !! "control" with
    | Some control =>
        shape (SSMDataset.controls (dataset dl)) = k :: tail (shape control)
    | None =>
        exists t, shape image !! 1 = Some t /\
                  shape (SSMDataset.controls (dataset dl)) = [k; t; 1]
    end.
Proof.
  intros (a & rand_idx & Hload & Hdraw & Hi & Hl & Hs & Hc)%make_loader_view.
  apply load_sources_Ok in Hload
    as (z & image & label & state & Hz & Hzi & Hzl & Hzs & Hai & Hal & Hsl & Hac).
  apply draw_rand_idx_Ok in Hdraw as (n & size & Hn & Hsize & Hchoice).
  apply choice_no_replace_length in Hchoice.
  apply slice_axis2_Ok in Hsl as (d0 & d1 & d2 & rest & Hss & Hss' & _ & _).
  apply take_rows_shape in Hi, Hl, Hs, Hc.
  rewrite Hchoice in Hi, Hl, Hs, Hc.
  rewrite Hai in Hi, Hn. rewrite Hal in Hl. rewrite Hss' in Hs.
  exists z, image, label, state, n, size. simpl. split_and!; try done.
  - by exists d0, d1, d2, rest.
  - destruct (z !! "control") as [control|]; [by rewrite <- Hac|].
    destruct Hac as (x0 & t & _ & Ht & Hac). rewrite Hac in Hc.
    by exists t.
Qed.

Lemma make_loader_shapes_witness :
  exists dl g',
    make_loader (Toy.module float_one 2 3) (Toy.fs (Toy.npz 3))
      (Some "test") None (Some false) (Toy.rng_const 0) = (Ok dl, g') /\
    shape (SSMDataset.states (dataset dl)) = [3; 2; 2] /\
    shape (SSMDataset.controls (dataset dl)) = [3; 2; 1].
Proof.
  destruct (toy_loader false 2 3 (Some "test") None (Some false)
              (Toy.rng_const 0)) as (dl & g' & E); [lia|lia|auto|].
  exists dl, g'. split; [exact E|].
  destruct (make_loader_shapes _ _ _ _ _ _ _ _ E)
    as (z & image & label & state & n & size & Hz & Hi & _ & Hs & Hn & Hsz
        & _ & _ & (d0 & d1 & d2 & rest & Hsh & Hst) & Hc).
  assert (z = Toy.npz 3) as -> by (by injection Hz).
  assert (image = Toy.float_array [3; 2; 3]) as -> by (by injection Hi).
  assert (state = Toy.float_array [3; 2; 4]) as -> by (by injection Hs).
  assert (n = 3) as -> by (by injection Hn).
  change (subsample_size 3 float_one = Ok size) in Hsz.
  rewrite (subsample_size_one 3) in Hsz by reflexivity.
  injection Hsz as <-. injection Hsh as <- <- <- <-.
  destruct Hc as (t & Ht & Hc). injection Ht as <-.
  by split.
Defined.

(** X8. Elements of the dataset.  Row [i] of every array of the dataset
    holds the elements of the archive row [rand_idx[i]]: images and states
    converted to float32, labels to int16, a stored [control] unconverted;
    the substitute for a missing [control] holds zeros only. *)
Theorem make_loader_elements self fs mode evaluation shuffle g dl g' :
  make_loader self fs mode evaluation shuffle g = (Ok dl, g') ->
  exists z image label state rand_idx,
    fs !! npz_path self (default "train" mode) = Some z /\
    z !! "image" = Some image /\ z !! "label" = Some label /\
    z !! "state" = Some state /\
    draw_rand_idx self (astype Float32 image) g = (Ok rand_idx, g') /\
    forall i j ix, rand_idx !! i = Some j ->
      item (SSMDataset.images (dataset dl)) (i :: ix)
      = cast_scalar Float32 (item image (j :: ix)) /\
      item (SSMDataset.labels (dataset dl)) (i :: ix)
      = cast_scalar Int16 (item label (j :: ix)) /\
      item (SSMDataset.states (dataset dl)) (i :: ix)
      = cast_scalar Float32 (item state (j :: ix)) /\
      item (SSMDataset.controls (dataset dl)) (i :: ix)
      = match z !! "control" with
        | Some control => item control (j :: ix)
        | None => SFlt (S754_zero false)
        end.
Proof.
  intros (a & rand_idx & Hload & Hdraw & Hi & Hl & Hs & Hc)%make_loader_view.
  apply load_sources_Ok in Hload
    as (z & image & label & state & Hz & Hzi & Hzl & Hzs & Hai & Hal & Hsl & Hac).
  apply slice_axis2_Ok in Hsl as (d0 & d1 & d2 & rest & _ & _ & _ & Hit).
  rewrite Hai in Hdraw.
  exists z, image, label, state, rand_idx. split_and!; try done.
  intros i j ix Hij.
  rewrite (take_rows_item _ _ _ _ _ _ Hi Hij), (take_rows_item _ _ _ _ _ _ Hl Hij),
    (take_rows_item _ _ _ _ _ _ Hs Hij), (take_rows_item _ _ _ _ _ _ Hc Hij).
  rewrite Hai, Hal, Hit. split_and!; try done.
  destruct (z !! "control") as [control|]; [by rewrite Hac|].
  destruct Hac as (x0 & t & _ & _ & ->). done.
Qed.

Lemma make_loader_elements_witness :
  exists dl g',
    make_loader (Toy.module float_one 2 3) (Toy.fs (Toy.npz 3))
      (Some "val") None (Some false) (Toy.rng_const 0) = (Ok dl, g') /\
    item (SSMDataset.labels (dataset dl)) [0] = SInt 1.
Proof.
  destruct (toy_loader false 2 3 (Some "val") None (Some false)
              (Toy.rng_const 0)) as (dl & g' & E); [lia|lia|auto|].
  exists dl, g'. split; [exact E|].
  destruct (make_loader_elements _ _ _ _ _ _ _ _ E)
    as (z & image & label & state & rand_idx & Hz & Hi & Hl & _ & Hd & Hit).
  assert (z = Toy.npz 3) as -> by (by injection Hz).
  assert (image = Toy.float_array [3; 2; 3]) as -> by (by injection Hi).
  assert (label = Toy.int_array [3]) as -> by (by injection Hl).
  vm_compute in Hd. injection Hd as <- _.
  by destruct (Hit 0 1 [] eq_refl) as (_ & -> & _).
Defined.

End Elements.

(* ===================================================================== *)
(** * When [make_loader] succeeds *)
(* ===================================================================== *)

Section Success.

Implicit Types (self : SSMDataModule.t) (fs : filesystem) (g : rng).
Implicit Types (z : npzfile) (a : arrays) (dl : DataLoader SSMDataset.t).



Lemma make_loader_one_index_set_witness :
  exists dl g',
    make_loader (Toy.module float_one 2 3) (Toy.fs (Toy.npz 3))
      (Some "val") None (Some false) (Toy.rng_const 0) = (Ok dl, g') /\
    shape_at (SSMDataset.images (dataset dl)) 0 =
      shape_at (SSMDataset.labels (dataset dl)) 0.
Proof.
  destruct (toy_loader false 2 3 (Some "val") None (Some false)
              (Toy.rng_const 0)) as (dl & g' & E); [lia|lia|auto|].
  exists dl, g'. split; [exact E|].
  destruct (make_loader_one_index_set _ _ _ _ _ _ _ _ E)
    as (a & n & size & idx & _ & _ & _ & _ & _ & Hi & Hl & _).
  by rewrite Hi, Hl.
Defined.

Lemma make_loader_element_types_witness :
  exists dl g',
    make_loader (Toy.module float_one 2 3) (Toy.fs (Toy.npz_with_control 3))
      (Some "val") None (Some false) (Toy.rng_const 0) = (Ok dl, g') /\
    forall s, SSMDataset.__getitem__ (dataset dl) 0 = Ok s ->
      dtype_of (s_image s) = Float32 /\ dtype_of (s_control s) = Int64.
Proof.
  destruct (toy_loader true 2 3 (Some "val") None (Some false)
              (Toy.rng_const 0)) as (dl & g' & E); [lia|lia|auto|].
  exists dl, g'. split; [exact E|].
  destruct (make_loader_element_types _ _ _ _ _ _ _ _ E) as (z & Hz & Ht).
  assert (z = Toy.npz_with_control 3) as -> by (by injection Hz).
  intros s Hs. destruct (Ht _ _ Hs) as (_ & Hi & _ & _ & Hc). by split.
Defined.

End Success.

(* ===================================================================== *)
(** * Failures *)
(* ===================================================================== *)

Section Failures.

Implicit Types (self : SSMDataModule.t) (fs : filesystem) (g : rng).
Implicit Types (z : npzfile) (a : arrays) (dl : DataLoader SSMDataset.t).

(** X5. The exceptions of [make_loader].  A failing call raises one of
    [FileNotFoundError], [KeyError], [IndexError], [ValueError] and
    [OverflowError]; building a loader never raises [RuntimeError] or
    [ZeroDivisionError]. *)
Theorem make_loader_exceptions self fs mode evaluation shuffle g g' (e : exn) :
  make_loader self fs mode evaluation shuffle g = (Raise e, g') ->
  (e = FileNotFoundError \/ e = KeyError \/ e = IndexError \/
   e = ValueError \/ e = OverflowError) /\
  e <> RuntimeError /\ e <> ZeroDivisionError.
Proof.
  intros Hm.
  assert (e = FileNotFoundError \/ e = KeyError \/ e = IndexError \/
          e = ValueError \/ e = OverflowError) as He.
  { destruct (load_sources self fs (default "train" mode)) as [a|e'] eqn:Hload.
    - destruct (make_loader_Raise_later _ _ _ _ _ _ _ _ _ Hload Hm)
        as [->|[->| ->]]; auto.
    - unfold make_loader in Hm. rewrite Hload in Hm. injection Hm as <- _.
      apply load_sources_Raise in Hload as [[-> _]|[[-> _]|[-> _]]]; auto. }
  split; [exact He|].
  destruct He as [->|[->|[->|[->| ->]]]]; by split.
Qed.

Lemma make_loader_exceptions_witness :
  exists e g',
    make_loader (Toy.module float_one 2 3) (Toy.fs (Toy.npz 3))
      (Some "dev") None None (Toy.rng_const 0) = (Raise e, g') /\
    e <> RuntimeError.
Proof.
  exists FileNotFoundError, (Toy.rng_const 0).
  assert (make_loader (Toy.module float_one 2 3) (Toy.fs (Toy.npz 3))
            (Some "dev") None None (Toy.rng_const 0)
          = (Raise FileNotFoundError, Toy.rng_const 0)) as E.
  { unfold make_loader. by rewrite load_sources_missing_file. }
  split; [exact E|].
  by destruct (make_loader_exceptions _ _ _ _ _ _ _ _ E) as (_ & H & _).
Defined.

(** X6. Axes that the archive must have.  With the archive and its three
    required keys present, [load_sources] fails, with [IndexError], exactly
    when [state] has fewer than three axes or when [control] is missing and
    [image] has fewer than two axes; [make_loader] then fails with the same
    error before it draws anything. *)
Theorem load_sources_axes self fs mode evaluation shuffle g z
    (image label state : ndarray) :
  fs !! npz_path self (default "train" mode) = Some z ->
  z !! "image" = Some image -> z !! "label" = Some label ->
  z !! "state" = Some state ->
  let too_few :=
    length (shape state) < 3 \/
    (z !! "control" = None /\ length (shape image) < 2) in
  (load_sources self fs (default "train" mode) = Raise IndexError <-> too_few) /\
  ((exists a, load_sources self fs (default "train" mode) = Ok a) <->
   ~ too_few) /\
  (too_few ->
   make_loader self fs mode evaluation shuffle g = (Raise IndexError, g)).
Proof.
  intros Hz Hi Hl Hs. simpl.
  assert (load_sources self fs (default "train" mode) =
          if decide (length (shape state) < 3) then Raise IndexError
          else match z !! "control" with
               | Some control =>
                   Ok (mk_arrays (astype Float32 image) (astype Int16 label)
                         (mk_ndarray Float32
                            (match shape state with
                             | d0 :: d1 :: d2 :: rest =>
                                 d0 :: d1 :: Nat.min 2 d2 :: rest
                             | sh => sh
                             end)
                            (item (astype Float32 state)))
                         control)
               | None =>
                   match shape image with
                   | d0 :: d1 :: _ =>
                       Ok (mk_arrays (astype Float32 image)
                             (astype Int16 label)
                             (mk_ndarray Float32
                                (match shape state with
                                 | d0 :: d1 :: d2 :: rest =>
                                     d0 :: d1 :: Nat.min 2 d2 :: rest
                                 | sh => sh
                                 end)
                                (item (astype Float32 state)))
                             (zeros [d0; d1; 1] Float32))
                   | _ => Raise IndexError
                   end
               end) as Hload.
  { unfold load_sources, Np.load, Np.getitem, contains, slice_axis2, shape_at.
    rewrite Hz. simpl. rewrite Hi. simpl. rewrite Hl. simpl. rewrite Hs. simpl.
    destruct (shape state) as [|d0 [|d1 [|d2 rest]]]; simpl; try done.
    destruct (z !! "control") as [control|] eqn:Hc.
    - by rewrite bool_decide_eq_true_2 by eauto.
    - rewrite bool_decide_eq_false_2 by (by intros [? [=]]).
      by destruct (shape image) as [|? [|? ?]]. }
  assert (make_loader self fs mode evaluation shuffle g =
          match load_sources self fs (default "train" mode) with
          | Raise e => (Raise e, g)
          | Ok a => make_loader self fs mode evaluation shuffle g
          end) as Hmk.
  { unfold make_loader. by destruct (load_sources _ _ _). }
  rewrite Hmk, Hload. clear Hmk Hload.
  destruct (decide (length (shape state) < 3)) as [Hlt|Hge].
  - split_and!; [by split; auto| |done].
    split; [by intros [? [=]]|]. intros H. destruct H. by left.
  - destruct (z !! "control") as [control|].
    + split_and!.
      * split; [discriminate|]. intros [?|[[=] _]]. lia.
      * split; [|by eauto]. intros _ [?|[[=] _]]. lia.
      * intros [?|[[=] _]]. lia.
    + destruct (shape image) as [|d0 [|d1 rest]]; simpl.
      * split_and!; [split; [|done]; right; split; [done|lia]| |done].
        split; [by intros [? [=]]|]. intros H. destruct H. right.
        split; [done|lia].
      * split_and!; [split; [|done]; right; split; [done|lia]| |done].
        split; [by intros [? [=]]|]. intros H. destruct H. right.
        split; [done|lia].
      * split_and!.
        -- split; [discriminate|]. intros [?|[_ ?]]; lia.
        -- split; [|by eauto]. intros _ [?|[_ ?]]; lia.
        -- intros [?|[_ ?]]; lia.
Qed.

Lemma load_sources_axes_witness :
  make_loader (Toy.module float_one 2 3)
    (Toy.fs (Toy.npz_of (Toy.float_array [3; 2; 3]) (Toy.int_array [3])
               (Toy.float_array [3; 2])))
    (Some "val") None (Some false) (Toy.rng_const 0)
  = (Raise IndexError, Toy.rng_const 0).
Proof.
  eapply (load_sources_axes (Toy.module float_one 2 3) _ (Some "val") None
            (Some false) (Toy.rng_const 0) _
            (Toy.float_array [3; 2; 3]) (Toy.int_array [3])
            (Toy.float_array [3; 2])); try reflexivity.
  left. simpl. lia.
Defined.

End Failures.
